(** * Local_LLM_App: the streaming proxy of [server/app.py]

    A shallow embedding of the two request handlers [chat] and
    [chat_stream] and of the two generators [ollama_stream] and
    [gemini_cli_stream] that [chat_stream] closes over, followed by the
    properties of the NDJSON stream they produce.

    Conventions.
    - Python values that come out of [json.loads] / [request.get_json]
      are the type [json]; a dict is an association list read by its
      first binding of a key.
    - A Python [str] is a Rocq [string], one [ascii] per character (code
      points 0..255); the [str] methods the handlers call are given on
      that range.
    - [json.loads] and [json.dumps] belong to the Python library: the
      generators take them as Section variables.
    - A generator body is a computation in the monad [G]: it threads the
      trace of observable events and the consumer's remaining demand, and
      ends normally or by raising. *)

From Stdlib Require Import String Ascii List ZArith Bool Lia PrimFloat.
Import ListNotations.
Local Open Scope string_scope.

(* ================================================================== *)
(** ** Python strings *)

Module Str.

Definition nl : string := String (ascii_of_nat 10) EmptyString.

(** [str.isspace] on one character. *)
Definition isspace (c : ascii) : bool :=
  let n := nat_of_ascii c in
  (((9 <=? n) && (n <=? 13)) || ((28 <=? n) && (n <=? 32))
   || (n =? 133) || (n =? 160))%nat.

(** [str.lower] on one character: A-Z, and the accented capitals
    0xC0-0xDE but the multiplication sign 0xD7. *)
Definition lower_char (c : ascii) : ascii :=
  let n := nat_of_ascii c in
  if (((65 <=? n) && (n <=? 90))
      || ((192 <=? n) && (n <=? 222) && negb (n =? 215)))%nat
  then ascii_of_nat (n + 32) else c.

Fixpoint lower (s : string) : string :=
  match s with
  | EmptyString => EmptyString
  | String c r => String (lower_char c) (lower r)
  end.

Fixpoint lstrip (s : string) : string :=
  match s with
  | EmptyString => EmptyString
  | String c r => if isspace c then lstrip r else s
  end.

(** [s.rstrip()] when [p] is [isspace], [s.rstrip(chars)] when [p]
    tests membership in [chars]. *)
Fixpoint rstrip_by (p : ascii -> bool) (s : string) : string :=
  match s with
  | EmptyString => EmptyString
  | String c r =>
      match rstrip_by p r with
      | EmptyString => if p c then EmptyString else String c EmptyString
      | r' => String c r'
      end
  end.

Definition rstrip : string -> string := rstrip_by isspace.

Definition strip (s : string) : string := rstrip (lstrip s).

(** [line.rstrip("\n")] *)
Definition rstrip_newline : string -> string :=
  rstrip_by (fun c => Ascii.eqb c (ascii_of_nat 10)).

Definition is_empty (s : string) : bool :=
  match s with EmptyString => true | _ => false end.

(** [s[:n]] *)
Fixpoint take (n : nat) (s : string) : string :=
  match n, s with
  | S k, String c r => String c (take k r)
  | _, _ => EmptyString
  end.

(** [sub in s] for two strings. *)
Fixpoint contains (sub s : string) : bool :=
  String.prefix sub s
  || match s with
     | EmptyString => false
     | String _ r => contains sub r
     end.

(** The characters of a string, as [list(s)] gives them. *)
Fixpoint chars (s : string) : list string :=
  match s with
  | EmptyString => []
  | String c r => String c EmptyString :: chars r
  end.

End Str.

(* ================================================================== *)
(** ** JSON values and the Python operations applied to them *)

#[warnings="-register-all"]
Inductive json : Type :=
| JNull
| JBool (b : bool)
| JInt (z : Z)
| JFloat (f : float)
| JStr (s : string)
| JList (l : list json)
| JDict (d : list (string * json)).

Definition dict := list (string * json).

(** [bool(v)] *)
Definition truthy (v : json) : bool :=
  match v with
  | JNull => false
  | JBool b => b
  | JInt z => negb (z =? 0)%Z
  | JFloat f => negb (PrimFloat.eqb f PrimFloat.zero)
  | JStr s => negb (Str.is_empty s)
  | JList l => match l with [] => false | _ => true end
  | JDict d => match d with [] => false | _ => true end
  end.

(** [a or b] *)
Definition py_or (a b : json) : json := if truthy a then a else b.

Fixpoint lookup (k : string) (d : dict) : option json :=
  match d with
  | [] => None
  | (k', v) :: r => if String.eqb k k' then Some v else lookup k r
  end.

(** [d.get(k)] on a dict: [None] when the key is missing. *)
Definition dict_get (k : string) (d : dict) : json :=
  match lookup k d with Some v => v | None => JNull end.

(** [d.get(k, default)] *)
Definition dict_get_default (k : string) (default : json) (d : dict) : json :=
  match lookup k d with Some v => v | None => default end.

Definition has_key (k : string) (d : dict) : bool :=
  match lookup k d with Some _ => true | None => false end.

(** [isinstance(v, dict)] *)
Definition is_dict (v : json) : bool :=
  match v with JDict _ => true | _ => false end.

(* ================================================================== *)
(** ** Exceptions and results *)

(** [Exception msg] stands for any instance of a subclass of
    [Exception], [msg] being [str(e)]; [RequestException] is the family
    [requests] raises, the one [chat] catches; [GeneratorExit] is what
    [close()] raises at the suspended [yield], and is not an
    [Exception]. *)
Inductive exn : Type :=
| Exception (msg : string)
| RequestException (msg : string)
| GeneratorExit.

Definition is_Exception (e : exn) : bool :=
  match e with GeneratorExit => false | _ => true end.

Definition exn_str (e : exn) : string :=
  match e with
  | Exception m | RequestException m => m
  | GeneratorExit => ""
  end.

Inductive outcome (A : Type) : Type :=
| Ok (a : A)
| Raise (e : exn).
Arguments Ok {A} a.
Arguments Raise {A} e.

Definition obind {A B} (o : outcome A) (f : A -> outcome B) : outcome B :=
  match o with Ok a => f a | Raise e => Raise e end.

(** Method calls on a value of unknown type: only the class that has
    the method answers, the others raise [AttributeError] or
    [TypeError]. *)
Definition AttributeError (what : string) : exn :=
  Exception ("object has no attribute '" ++ what ++ "'").

Definition TypeError (what : string) : exn :=
  Exception ("TypeError: " ++ what).

(** [v.get(k)] *)
Definition py_get (v : json) (k : string) : outcome json :=
  match v with
  | JDict d => Ok (dict_get k d)
  | _ => Raise (AttributeError "get")
  end.

(** [v.get(k, default)] *)
Definition py_get_default (v : json) (k : string) (default : json)
  : outcome json :=
  match v with
  | JDict d => Ok (dict_get_default k default d)
  | _ => Raise (AttributeError "get")
  end.

(** [v.strip()] *)
Definition py_strip (v : json) : outcome string :=
  match v with
  | JStr s => Ok (Str.strip s)
  | _ => Raise (AttributeError "strip")
  end.

(** [k in v] for a string [k] *)
Definition py_in (k : string) (v : json) : outcome bool :=
  match v with
  | JDict d => Ok (has_key k d)
  | JStr s => Ok (Str.contains k s)
  | JList l =>
      Ok (existsb (fun x => match x with
                            | JStr s => String.eqb k s
                            | _ => false
                            end) l)
  | _ => Raise (TypeError "argument is not iterable")
  end.

(** [list(v)] *)
Definition py_list (v : json) : outcome (list json) :=
  match v with
  | JList l => Ok l
  | JDict d => Ok (map (fun kv => JStr (fst kv)) d)
  | JStr s => Ok (map JStr (Str.chars s))
  | _ => Raise (TypeError "object is not iterable")
  end.

(** [l[-n:]] *)
Definition last_n {A} (n : nat) (l : list A) : list A :=
  skipn (length l - n) l.

(** [v[k]] for a string [k] *)
Definition py_getitem (v : json) (k : string) : outcome json :=
  match v with
  | JDict d =>
      match lookup k d with
      | Some x => Ok x
      | None => Raise (Exception ("KeyError: " ++ k))
      end
  | _ => Raise (TypeError "indices must be integers")
  end.

(* ================================================================== *)
(** ** The world outside the process *)

(** What [requests.post(...)] gives back once the connection is made:
    whether [raise_for_status()] raises, the lines [iter_lines] delivers
    and the exception it raises after them (a read timeout, a broken
    connection), and what [r.json()] returns. *)
Record http_response : Type := {
  status_error : option string;
  iter_lines : list string;
  read_error : option string;
  json_body : outcome json
}.

Inductive http_reply : Type :=
| ConnectFails (e : string)
| Responds (r : http_response).

(** What [subprocess.Popen(args, stdout=PIPE, stderr=STDOUT, text=True)]
    gives back: it raises, or the child runs; [stdout] are the lines the
    iteration over [proc.stdout] delivers, each with its line end,
    [stdout_error] the exception that iteration raises after them (bytes
    that do not decode), [terminate_error] the exception
    [proc.terminate()] raises. *)
Record process : Type := {
  stdout : list string;
  stdout_error : option string;
  terminate_error : option string
}.

Inductive launch : Type :=
| LaunchFails (e : string)
| Launched (proc : process).

Record world : Type := {
  environ : string -> option string;
  requests_post : string -> json -> http_reply;
  subprocess_Popen : list string -> launch
}.

(** [os.environ.get(k, default)] *)
Definition environ_get (w : world) (k default : string) : string :=
  match environ w k with Some v => v | None => default end.

Definition OLLAMA_BASE (w : world) : string :=
  environ_get w "OLLAMA_BASE" "http://localhost:11434".

Definition MODEL (w : world) : string :=
  environ_get w "OLLAMA_MODEL" "gpt-oss:20b".

(* ================================================================== *)
(** ** Effects: the trace, the consumer, and the monad [G] *)

Inductive event : Type :=
| Post (url : string) (payload : json)   (* requests.post is called *)
| CloseResponse                          (* the with block is left *)
| Popen (args : list string)             (* subprocess.Popen is called *)
| Terminate                              (* proc.terminate() is called *)
| Yield (chunk : string).                (* a chunk is handed to the server *)

(** [demand]: how many more chunks the consumer takes before it calls
    [close()] on the generator; [None] when it iterates to the end. *)
Record gstate : Type := {
  demand : option nat;
  trace : list event
}.

Definition G (A : Type) : Type := gstate -> outcome A * gstate.

Definition ret {A} (a : A) : G A := fun s => (Ok a, s).

Definition bind {A B} (m : G A) (f : A -> G B) : G B :=
  fun s => match m s with
           | (Ok a, s') => f a s'
           | (Raise e, s') => (Raise e, s')
           end.

Definition raise {A} (e : exn) : G A := fun s => (Raise e, s).

Definition lift {A} (o : outcome A) : G A := fun s => (o, s).

Definition emit (ev : event) : G unit :=
  fun s => (Ok tt, {| demand := demand s; trace := (trace s ++ [ev])%list |}).

(** [yield chunk]: the chunk goes out and the generator is suspended; it
    is resumed by [next()], or by [close()], which raises
    [GeneratorExit] at this point. *)
Definition yield (chunk : string) : G unit :=
  fun s =>
    let t := (trace s ++ [Yield chunk])%list in
    match demand s with
    | None => (Ok tt, {| demand := None; trace := t |})
    | Some n =>
        if (n <=? 1)%nat
        then (Raise GeneratorExit, {| demand := Some 0; trace := t |})
        else (Ok tt, {| demand := Some (n - 1); trace := t |})
    end.

(** [try: body  except C as e: handler e], [catches] telling the
    instances of the class [C]. *)
Definition try_catch {A} (catches : exn -> bool)
    (body : G A) (handler : exn -> G A) : G A :=
  fun s => match body s with
           | (Raise e, s') =>
               if catches e then handler e s' else (Raise e, s')
           | r => r
           end.

Definition is_RequestException (e : exn) : bool :=
  match e with RequestException _ => true | _ => false end.

(** [try: body  except Exception as e: handler e] *)
Definition try_except {A} : G A -> (exn -> G A) -> G A :=
  try_catch is_Exception.

(** [try: body  finally: fin] *)
Definition try_finally {A} (body : G A) (fin : G unit) : G A :=
  fun s => let (o, s1) := body s in
           match fin s1 with
           | (Ok _, s2) => (o, s2)
           | (Raise e, s2) => (Raise e, s2)
           end.

Declare Scope G_scope.
Delimit Scope G_scope with G.
Notation "x <- m ;; k" := (bind m (fun x => k))
  (at level 100, m at next level, right associativity) : G_scope.
Notation "m ;; k" := (bind m (fun _ => k))
  (at level 100, right associativity) : G_scope.
Local Open Scope G_scope.

(** Iterating a generator under a consumer: a consumer that closes it
    before the first [next()] never starts the body. *)
Definition run (g : G unit) (d : option nat) : outcome unit * list event :=
  match d with
  | Some 0 => (Ok tt, [])
  | _ => let (o, s) := g {| demand := d; trace := [] |} in (o, trace s)
  end.

Fixpoint chunks (t : list event) : list string :=
  match t with
  | [] => []
  | Yield c :: r => c :: chunks r
  | _ :: r => chunks r
  end.

(* ================================================================== *)
(** ** The handlers of [server/app.py] *)

(** The backend a streaming response iterates, with the variables the
    nested generator functions close over. *)
Inductive generator : Type := ollama_stream_fn | gemini_cli_stream_fn.

Inductive response : Type :=
| Html (status : nat)
| Json (body : json) (status : nat)
| Stream (gen : generator) (message : string) (messages : json).

Definition turn (role content : string) : json :=
  JDict [("role", JStr role); ("content", JStr content)].

Definition response_record (v : json) : json := JDict [("response", v)].

Definition error_record (msg : string) : json := JDict [("error", JStr msg)].

Section Handlers.

(** [json.loads], [None] when it raises, and [json.dumps] with
    [ensure_ascii=False]. *)
Variable json_loads : string -> option json.
Variable json_dumps : json -> string.
Variable w : world.

Definition _ndjson (obj : json) : string := json_dumps obj ++ Str.nl.

(** *** [chat], lines 38-88 *)
Definition chat (method : string) (body : json) : G response :=
  if String.eqb method "GET" then ret (Html 200) else
  let data := py_or body (JDict []) in
  v <- lift (py_get data "message") ;;
  message <- lift (py_strip (py_or v (JStr ""))) ;;
  v <- lift (py_get data "messages") ;;
  let messages := py_or v (JList []) in
  v <- lift (py_get data "provider") ;;
  provider <- lift (py_strip (py_or v (JStr "ollama"))) ;;
  let provider := Str.lower provider in
  if Str.is_empty message && negb (truthy messages)
  then ret (Json (error_record "message is required") 400) else
  let message :=
    if negb (Str.is_empty message)
       && (8000 <? Z.of_nat (String.length message))%Z
    then Str.take (Z.to_nat 8000) message else message in
  let messages :=
    match messages with
    | JList ((_ :: _) as l) => JList (last_n 20 l)
    | _ => messages
    end in
  try_catch is_RequestException
    (if truthy messages then
       chat_messages <- lift (py_list messages) ;;
       let chat_messages :=
         if negb (Str.is_empty message)
         then (chat_messages ++ [turn "user" message])%list
         else chat_messages in
       let payload := JDict [("model", JStr (MODEL w));
                             ("messages", JList chat_messages);
                             ("stream", JBool false)] in
       let url := OLLAMA_BASE w ++ "/api/chat" in
       emit (Post url payload) ;;
       match requests_post w url payload with
       | ConnectFails e => raise (RequestException e)
       | Responds r =>
           match status_error r with
           | Some e => raise (RequestException e)
           | None =>
               j <- lift (json_body r) ;;
               v <- lift (py_get j "message") ;;
               reply <- lift (py_get_default (py_or v (JDict []))
                                             "content" (JStr "")) ;;
               ret (Json (JDict [("reply", reply)]) 200)
           end
       end
     else
       let payload := JDict [("model", JStr (MODEL w));
                             ("prompt", JStr message);
                             ("stream", JBool false)] in
       let url := OLLAMA_BASE w ++ "/api/generate" in
       emit (Post url payload) ;;
       match requests_post w url payload with
       | ConnectFails e => raise (RequestException e)
       | Responds r =>
           match status_error r with
           | Some e => raise (RequestException e)
           | None =>
               j <- lift (json_body r) ;;
               reply <- lift (py_get_default j "response" (JStr "")) ;;
               ret (Json (JDict [("reply", reply)]) 200)
           end
       end)
    (fun e => ret (Json (error_record (exn_str e)) 502)).

(** *** [chat_stream], lines 92-167: the handler proper *)
Definition chat_stream (body : json) : outcome response :=
  let data := py_or body (JDict []) in
  obind (py_get data "message") (fun v =>
  obind (py_strip (py_or v (JStr ""))) (fun message =>
  obind (py_get data "messages") (fun v =>
  let messages := py_or v (JList []) in
  obind (py_get data "provider") (fun v =>
  obind (py_strip (py_or v (JStr "ollama"))) (fun provider =>
  let provider := Str.lower provider in
  if Str.is_empty message && negb (truthy messages)
  then Ok (Json (error_record "message is required") 400) else
  let generator :=
    if String.eqb provider "ollama"
    then ollama_stream_fn else gemini_cli_stream_fn in
  Ok (Stream generator message messages)))))).

(** *** The generators nested in [chat_stream] *)
Section Closure.

Variable message : string.
Variable messages : json.

(** The body of [for raw in r.iter_lines(decode_unicode=True)],
    lines 123-139; a [break] leaves the remaining lines unread. *)
Fixpoint ollama_lines (lines : list string) (err : option string)
  : G unit :=
  match lines with
  | [] =>
      match err with
      | Some e => raise (RequestException e)
      | None => ret tt
      end
  | raw :: rest =>
      if Str.is_empty raw then ollama_lines rest err else
      match json_loads raw with
      | None => ollama_lines rest err
      | Some j =>
          has <- lift (py_in "response" j) ;;
          c1 <- (if has : bool
                 then v <- lift (py_get j "response") ;; ret (truthy v)
                 else ret false) ;;
          (if c1 : bool then
             v <- lift (py_getitem j "response") ;;
             yield (_ndjson (response_record v))
           else
             has <- lift (py_in "message" j) ;;
             c2 <- (if has : bool
                    then v <- lift (py_get j "message") ;; ret (is_dict v)
                    else ret false) ;;
             if c2 : bool then
               m <- lift (py_getitem j "message") ;;
               v <- lift (py_get m "content") ;;
               let content := py_or v (JStr "") in
               if truthy content
               then yield (_ndjson (response_record content))
               else ret tt
             else ret tt) ;;
          d <- lift (py_get j "done") ;;
          if truthy d then ret tt else ollama_lines rest err
      end
  end.

(** [ollama_stream], lines 104-141 *)
Definition ollama_stream : G unit :=
  try_except
    (req <- (if truthy messages then
               chat_messages <- lift (py_list messages) ;;
               let chat_messages :=
                 if negb (Str.is_empty message)
                 then (chat_messages ++ [turn "user" message])%list
                 else chat_messages in
               ret (OLLAMA_BASE w ++ "/api/chat",
                    JDict [("model", JStr (MODEL w));
                           ("messages", JList chat_messages);
                           ("stream", JBool true)])
             else
               ret (OLLAMA_BASE w ++ "/api/generate",
                    JDict [("model", JStr (MODEL w));
                           ("prompt", JStr message);
                           ("stream", JBool true)])) ;;
     let '(url, payload) := req in
     emit (Post url payload) ;;
     match requests_post w url payload with
     | ConnectFails e => raise (RequestException e)
     | Responds r =>
         try_finally
           (match status_error r with
            | Some e => raise (RequestException e)
            | None => ollama_lines (iter_lines r) (read_error r)
            end)
           (emit CloseResponse)
     end)
    (fun e => yield (_ndjson (error_record
                                ("ollama stream failed: " ++ exn_str e)))).

(** The body of [for line in proc.stdout], lines 155-159. *)
Fixpoint gemini_lines (lines : list string) (err : option string)
  : G unit :=
  match lines with
  | [] =>
      match err with
      | Some e => raise (Exception e)
      | None => ret tt
      end
  | line :: rest =>
      let line := Str.rstrip_newline line in
      if Str.is_empty line then gemini_lines rest err else
      yield (_ndjson (response_record (JStr line))) ;;
      gemini_lines rest err
  end.

(** [gemini_cli_stream], lines 143-164 *)
Definition gemini_cli_stream : G unit :=
  let cmd := environ_get w "GEMINI_CMD" "gemini" in
  let model := environ_get w "GEMINI_MODEL" "gemini-1.5-flash" in
  let args := [cmd; "stream"; "-m"; model; "-p"; message] in
  emit (Popen args) ;;
  match subprocess_Popen w args with
  | LaunchFails e =>
      yield (_ndjson (error_record ("failed to start gemini cli: " ++ e)))
  | Launched proc =>
      try_finally
        (gemini_lines (stdout proc) (stdout_error proc))
        (try_except
           (emit Terminate ;;
            match terminate_error proc with
            | Some e => raise (Exception e)
            | None => ret tt
            end)
           (fun _ => ret tt))
  end.

End Closure.

(** [generator()] for the function [chat_stream] picked. *)
Definition call (gen : generator) (message : string) (messages : json)
  : G unit :=
  match gen with
  | ollama_stream_fn => ollama_stream message messages
  | gemini_cli_stream_fn => gemini_cli_stream message
  end.

(** What the server sends for a response under a given consumer: the
    final outcome of the generator and the trace of its events; a
    response that is not a stream has no chunks. *)
Definition serve (r : response) (d : option nat)
  : outcome unit * list event :=
  match r with
  | Stream gen message messages => run (call gen message messages) d
  | _ => (Ok tt, [])
  end.

End Handlers.

Arguments ollama_lines json_loads json_dumps lines err : rename.
Arguments gemini_lines json_dumps lines err : rename.

(* ================================================================== *)
(** ** Vocabulary of the properties *)

(** The request fields as the handlers read them off the body. *)
Definition message_field (d : dict) : json :=
  py_or (dict_get "message" d) (JStr "").

Definition history_field (d : dict) : json :=
  py_or (dict_get "messages" d) (JList []).

Definition provider_field (d : dict) : json :=
  py_or (dict_get "provider" d) (JStr "ollama").



(** The provider is missing or a string, as the data model has it. *)
Definition provider_is_text (d : dict) : bool :=
  match provider_field d with JStr _ => true | _ => false end.

(** The provider names the help page of [chat] lists, line 44. *)
Definition known_provider (p : string) : bool :=
  String.eqb p "ollama" || String.eqb p "gemini".

(** The generator [chat_stream] picks for a provider string. *)
Definition generator_for (p : string) : generator :=
  if String.eqb (Str.lower (Str.strip p)) "ollama"
  then ollama_stream_fn else gemini_cli_stream_fn.

(** Sample inputs: a history of 25 turns, a message of 8001 characters,
    and a world in which nothing is configured and every connection and
    every launch fails. *)
Definition history25 : list json :=
  map (turn "user") (Str.chars "abcdefghijklmnopqrstuvwxy").

Definition message8001 : string :=
  String.concat "" (repeat "a" (Z.to_nat 8001)).

Definition offline : world := {|
  environ := fun _ => None;
  requests_post := fun _ _ => ConnectFails "connection refused";
  subprocess_Popen := fun _ => LaunchFails "No such file or directory"
|}.

(** The ["messages"] and ["prompt"] entries of the payload of the first
    [requests.post] of a trace. *)
Definition first_post (t : list event) : option json :=
  match filter (fun ev => match ev with Post _ _ => true | _ => false end) t
  with
  | Post _ payload :: _ => Some payload
  | _ => None
  end.

Definition posted_turns (t : list event) : option nat :=
  match first_post t with
  | Some (JDict p) =>
      match dict_get "messages" p with
      | JList l => Some (length l)
      | _ => None
      end
  | _ => None
  end.

Definition posted_prompt_length (t : list event) : option nat :=
  match first_post t with
  | Some (JDict p) =>
      match dict_get "prompt" p with
      | JStr m => Some (String.length m)
      | _ => None
      end
  | _ => None
  end.

(** The reply of lines 57 and 99. *)
Definition message_required : response :=
  Json (error_record "message is required") 400.

(** The event of yielding the record [{"response": v}]. *)
Definition yield_response (json_dumps : json -> string) (v : json) : event :=
  Yield (_ndjson json_dumps (response_record v)).

(** A computation that adds to the trace nothing but yields of
    [{"response": ...}] records. *)
Definition yields_responses (json_dumps : json -> string) {A} (g : G A)
  : Prop :=
  forall s, exists vals,
    trace (snd (g s)) = (trace s ++ map (yield_response json_dumps) vals)%list.

(** The command line of [gemini_cli_stream], line 146. *)
Definition gemini_args (w : world) (message : string) : list string :=
  [environ_get w "GEMINI_CMD" "gemini"; "stream"; "-m";
   environ_get w "GEMINI_MODEL" "gemini-1.5-flash"; "-p"; message].

(** The lines of the child's output once the line ends are stripped and
    the blank lines dropped. *)
Definition non_blank_lines (lines : list string) : list string :=
  filter (fun l => negb (Str.is_empty l)) (map Str.rstrip_newline lines).

(** The same child, whose [terminate()] does not raise. *)
Definition quiet_terminate (proc : process) : process := {|
  stdout := stdout proc;
  stdout_error := stdout_error proc;
  terminate_error := None
|}.

(** The same world, in which every launch gives the child [proc]. *)
Definition with_process (w : world) (proc : process) : world := {|
  environ := environ w;
  requests_post := requests_post w;
  subprocess_Popen := fun _ => Launched proc
|}.

(** The three ends of a generator that has launched its child: the
    output is exhausted, the consumer closed the generator, or reading
    the output raised [e]. *)
Definition ends_as (proc : process) (o : outcome unit) : Prop :=
  o = Ok tt \/ o = Raise GeneratorExit \/
  exists e, stdout_error proc = Some e /\ o = Raise (Exception e).

(** A child that prints the three lines "1", "" and "2". *)
Definition one_blank_two : process := {|
  stdout := ["1" ++ Str.nl; Str.nl; "2" ++ Str.nl];
  stdout_error := None;
  terminate_error := None
|}.

(** A child whose output stops decoding after its first line, and
    which has exited by the time it is terminated. *)
Definition garbled : process := {|
  stdout := ["ok" ++ Str.nl];
  stdout_error := Some "'utf-8' codec can't decode byte 0xff";
  terminate_error := Some "No such process"
|}.

(** The event of yielding the record [{"error": msg}]. *)
Definition yield_error (json_dumps : json -> string) (msg : string) : event :=
  Yield (_ndjson json_dumps (error_record msg)).

(** The endpoint and the payload of the request [ollama_stream] makes,
    lines 106-115; it raises when [list(messages)] does. *)
Definition ollama_request (w : world) (message : string) (messages : json)
  : outcome (string * json) :=
  if truthy messages then
    obind (py_list messages) (fun history =>
      Ok (OLLAMA_BASE w ++ "/api/chat",
          JDict [("model", JStr (MODEL w));
                 ("messages",
                  JList (if Str.is_empty message then history
                         else history ++ [turn "user" message])%list);
                 ("stream", JBool true)]))
  else
    Ok (OLLAMA_BASE w ++ "/api/generate",
        JDict [("model", JStr (MODEL w));
               ("prompt", JStr message);
               ("stream", JBool true)]).

Definition posts (w : world) (message : string) (messages : json)
  : list event :=
  match ollama_request w message messages with
  | Ok (url, payload) => [Post url payload]
  | Raise _ => []
  end.

(** Output records: an error record is one with the key ["error"]; in
    a well-formed stream an error record has nothing after it. *)
Definition is_error_record (r : json) : bool :=
  match r with JDict d => has_key "error" d | _ => false end.

Fixpoint error_terminal (recs : list json) : bool :=
  match recs with
  | [] => true
  | r :: rest =>
      if is_error_record r
      then match rest with [] => true | _ => false end
      else error_terminal rest
  end.

Definition has_error (recs : list json) : bool := existsb is_error_record recs.

(** The extraction rule in the words of the specification: the record
    a fragment gives, if any, and whether the fragment ends the stream. *)
Definition fragment_record (d : dict) : option json :=
  if truthy (dict_get "response" d)
  then Some (response_record (dict_get "response" d))
  else match dict_get "message" d with
       | JDict m =>
           if truthy (dict_get "content" m)
           then Some (response_record (dict_get "content" m))
           else None
       | _ => None
       end.

Definition fragment_done (d : dict) : bool := truthy (dict_get "done" d).

(** The fragments of the examples. *)
Definition fragment_a : json :=
  JDict [("response", JStr "a"); ("done", JBool false)].

Definition fragment_b_done : json :=
  JDict [("response", JStr "b"); ("done", JBool true)].

Definition fragment_chat_x : dict :=
  [("message", turn "assistant" "x"); ("done", JBool false)].

(** A successful reply that delivers [lines] and then raises [err], if
    any; and the same world, in which every request gets the reply [r]. *)
Definition reply_lines (lines : list string) (err : option string)
  : http_response := {|
  status_error := None;
  iter_lines := lines;
  read_error := err;
  json_body := Ok JNull
|}.

Definition with_reply (w : world) (r : http_response) : world := {|
  environ := environ w;
  requests_post := fun _ _ => Responds r;
  subprocess_Popen := subprocess_Popen w
|}.

(** A parser that knows three lines: "A" and "B" are the two fragments
    of the example, "C" is one more fragment, anything else is not JSON. *)
Definition loads_ABC (raw : string) : option json :=
  if String.eqb raw "A" then Some fragment_a
  else if String.eqb raw "B" then Some fragment_b_done
  else if String.eqb raw "C" then Some (JDict fragment_chat_x)
  else None.

(** The limits of [chat], lines 59-63. *)
Definition limit_message (m : string) : string :=
  if negb (Str.is_empty m) && (8000 <? Z.of_nat (String.length m))%Z
  then Str.take (Z.to_nat 8000) m else m.

Definition limit_history (h : json) : json :=
  match h with
  | JList ((_ :: _) as l) => JList (last_n 20 l)
  | _ => h
  end.

(** The endpoint and the payload [chat] posts, lines 67-82: those of
    [ollama_request] with ["stream"] false. *)
Definition chat_request (w : world) (message : string) (messages : json)
  : outcome (string * json) :=
  if truthy messages then
    obind (py_list messages) (fun history =>
      Ok (OLLAMA_BASE w ++ "/api/chat",
          JDict [("model", JStr (MODEL w));
                 ("messages",
                  JList (if Str.is_empty message then history
                         else history ++ [turn "user" message])%list);
                 ("stream", JBool false)]))
  else
    Ok (OLLAMA_BASE w ++ "/api/generate",
        JDict [("model", JStr (MODEL w));
               ("prompt", JStr message);
               ("stream", JBool false)]).

Definition chat_posts (w : world) (message : string) (messages : json)
  : list event :=
  match chat_request w message messages with
  | Ok (url, payload) => [Post url payload]
  | Raise _ => []
  end.

(** The state in which a handler or a generator starts. *)
Definition idle : gstate := {| demand := None; trace := [] |}.

(** The message is missing or a string. *)
Definition message_is_text (d : dict) : bool :=
  match message_field d with JStr _ => true | _ => false end.

(** The closing of the response [ollama_stream] obtained, if any. *)
Definition closing (w : world) (message : string) (messages : json)
  : list event :=
  match ollama_request w message messages with
  | Ok (url, payload) =>
      match requests_post w url payload with
      | Responds _ => [CloseResponse]
      | ConnectFails _ => []
      end
  | Raise _ => []
  end.

Definition is_post (ev : event) : bool :=
  match ev with Post _ _ => true | _ => false end.

Definition is_close (ev : event) : bool :=
  match ev with CloseResponse => true | _ => false end.

(** The events of the HTTP backend and those of the process backend. *)
Definition http_event (ev : event) : bool :=
  match ev with Post _ _ | CloseResponse => true | _ => false end.

Definition process_event (ev : event) : bool :=
  match ev with Popen _ | Terminate => true | _ => false end.

(** The records of a sequence of received lines, in the words of the
    loop: empty and unparseable lines give nothing, an object gives the
    record of the extraction rule, and nothing is read behind an object
    that is done. *)
Fixpoint fragment_records (json_loads : string -> option json)
    (lines : list string) : list json :=
  match lines with
  | [] => []
  | raw :: rest =>
      if Str.is_empty raw then fragment_records json_loads rest else
      match json_loads raw with
      | Some (JDict d) =>
          (match fragment_record d with Some r => [r] | None => [] end
           ++ if fragment_done d then []
              else fragment_records json_loads rest)%list
      | Some _ => []
      | None => fragment_records json_loads rest
      end
  end.

(** Some object among the lines is done. *)
Fixpoint reaches_done (json_loads : string -> option json)
    (lines : list string) : bool :=
  match lines with
  | [] => false
  | raw :: rest =>
      if Str.is_empty raw then reaches_done json_loads rest else
      match json_loads raw with
      | Some (JDict d) => fragment_done d || reaches_done json_loads rest
      | Some _ => false
      | None => reaches_done json_loads rest
      end
  end.

(** Every non-empty line that parses, parses to an object. *)
Definition all_objects (json_loads : string -> option json)
    (lines : list string) : bool :=
  forallb (fun raw => Str.is_empty raw
                      || match json_loads raw with
                         | Some j => is_dict j
                         | None => true
                         end) lines.

(** A computation that behaves the same whether the consumer iterates to
    the end or closes the generator after [S n] more chunks, up to the
    point of the close: with [t1] the events of the full run, the run
    under the closing consumer yields the first [S n] chunks of [t1];
    when [t1] has at most [n] chunks it ends as the full run does, with
    the demand that is left; otherwise it ends by [GeneratorExit]. *)
Definition close_consistent {A} (g : G A) : Prop :=
  forall t n,
    exists o1 t1,
      g {| demand := None; trace := t |}
      = (o1, {| demand := None; trace := (t ++ t1)%list |}) /\
      exists o2 s2,
        g {| demand := Some (S n); trace := t |} = (o2, s2) /\
        chunks (trace s2) = (chunks t ++ firstn (S n) (chunks t1))%list /\
        ((length (chunks t1) <= n)%nat ->
         o2 = o1 /\
         s2 = {| demand := Some (S n - length (chunks t1));
                 trace := (t ++ t1)%list |}) /\
        ((n < length (chunks t1))%nat -> o2 = Raise GeneratorExit).

(** A clean-up: it succeeds, yields nothing, and does the same in every
    state. *)
Definition silent (fin : G unit) : Prop :=
  exists evs,
    chunks evs = [] /\
    forall s, fin s = (Ok tt, {| demand := demand s;
                                 trace := (trace s ++ evs)%list |}).

(** [d[k] = v] on a dict. *)
Fixpoint dict_set (k : string) (v : json) (d : dict) : dict :=
  match d with
  | [] => [(k, v)]
  | (k', v') :: r =>
      if String.eqb k k' then (k, v) :: r else (k', v') :: dict_set k v r
  end.

(** The same request, not streamed. *)
Definition stream_off (ev : event) : event :=
  match ev with
  | Post url (JDict p) => Post url (JDict (dict_set "stream" (JBool false) p))
  | _ => ev
  end.

(** The client's side of the framing: the text received is the chunks
    one after the other, and it is read back line by line. *)
Definition received (cs : list string) : string :=
  fold_right String.append "" cs.

Fixpoint no_newline (s : string) : bool :=
  match s with
  | EmptyString => true
  | String c r => negb (Ascii.eqb c (ascii_of_nat 10)) && no_newline r
  end.

Fixpoint split_lines (s : string) : list string :=
  match s with
  | EmptyString => []
  | String c r =>
      if Ascii.eqb c (ascii_of_nat 10) then "" :: split_lines r
      else match split_lines r with
           | [] => [String c ""]
           | l :: ls => String c l :: ls
           end
  end.

(* ================================================================== *)
(** * Properties *)

(** ** The monad *)

Lemma bind_lift_Ok {A B} (a : A) (f : A -> G B) : bind (lift (Ok a)) f = f a.
Proof. reflexivity. Qed.

Lemma bind_lift_Raise {A B} (e : exn) (f : A -> G B) :
  bind (lift (Raise e)) f = raise e.
Proof. reflexivity. Qed.

Lemma bind_ret {A B} (a : A) (f : A -> G B) : bind (ret a) f = f a.
Proof. reflexivity. Qed.

Lemma bind_emit {B} (ev : event) (k : unit -> G B) (s : gstate) :
  bind (emit ev) k s =
  k tt {| demand := demand s; trace := (trace s ++ [ev])%list |}.
Proof. reflexivity. Qed.

Lemma chunks_app (t1 t2 : list event) :
  chunks (t1 ++ t2) = (chunks t1 ++ chunks t2)%list.
Proof.
  induction t1 as [|ev t1 IH]; simpl; [reflexivity|].
  destruct ev; simpl; now rewrite ?IH.
Qed.

Lemma chunks_yield_response json_dumps (vals : list json) :
  chunks (map (yield_response json_dumps) vals) =
  map (fun v => _ndjson json_dumps (response_record v)) vals.
Proof. induction vals; simpl; [reflexivity | now f_equal]. Qed.

Lemma chunks_yield_error json_dumps (errs : list string) :
  chunks (map (yield_error json_dumps) errs) =
  map (fun e => _ndjson json_dumps (error_record e)) errs.
Proof. induction errs; simpl; [reflexivity | now f_equal]. Qed.

(** Response records with at most one error record behind them form a
    stream in which nothing follows an error record. *)
Lemma error_terminal_shape (vals : list json) (errs : list string) :
  (length errs <= 1)%nat ->
  error_terminal (map response_record vals ++ map error_record errs) = true.
Proof.
  intros H. induction vals as [|v vals IH]; simpl.
  - destruct errs as [|e [|e' errs]]; simpl in *; [reflexivity..|lia].
  - exact IH.
Qed.

Lemma has_error_responses (vals : list json) :
  has_error (map response_record vals) = false.
Proof. induction vals; simpl; auto. Qed.

Section Yields.

Variable json_dumps : json -> string.

Lemma only_responses_ret {A} (a : A) : yields_responses json_dumps (ret a).
Proof. intros s. exists []. simpl. now rewrite app_nil_r. Qed.

Lemma only_responses_raise {A} (e : exn) :
  yields_responses json_dumps (@raise A e).
Proof. intros s. exists []. simpl. now rewrite app_nil_r. Qed.

Lemma only_responses_lift {A} (o : outcome A) :
  yields_responses json_dumps (lift o).
Proof. intros s. exists []. simpl. now rewrite app_nil_r. Qed.

Lemma only_responses_yield (v : json) :
  yields_responses json_dumps (yield (_ndjson json_dumps (response_record v))).
Proof.
  intros s. exists [v]. unfold yield.
  destruct (demand s) as [n|]; [destruct (n <=? 1)%nat|]; reflexivity.
Qed.

Lemma only_responses_bind {A B} (m : G A) (f : A -> G B) :
  yields_responses json_dumps m ->
  (forall a, yields_responses json_dumps (f a)) ->
  yields_responses json_dumps (bind m f).
Proof.
  intros Hm Hf s. unfold bind.
  destruct (Hm s) as [v1 E1]. destruct (m s) as [[a|e] s1]; simpl in *.
  - destruct (Hf a s1) as [v2 E2]. exists (v1 ++ v2)%list.
    rewrite E2, E1, map_app, app_assoc. reflexivity.
  - exists v1. exact E1.
Qed.

Lemma only_responses_if {A} (b : bool) (g1 g2 : G A) :
  yields_responses json_dumps g1 -> yields_responses json_dumps g2 ->
  yields_responses json_dumps (if b then g1 else g2).
Proof. destruct b; auto. Qed.

End Yields.

Create HintDb gen.
#[local] Hint Resolve only_responses_ret only_responses_raise
  only_responses_lift only_responses_yield only_responses_bind
  only_responses_if : gen.

Lemma gemini_lines_only_responses json_dumps lines err :
  yields_responses json_dumps (gemini_lines json_dumps lines err).
Proof.
  induction lines as [|line rest IH]; simpl.
  - destruct err; auto with gen.
  - destruct (Str.is_empty (Str.rstrip_newline line)); auto with gen.
Qed.

Lemma ollama_lines_only_responses json_loads json_dumps lines err :
  yields_responses json_dumps (ollama_lines json_loads json_dumps lines err).
Proof.
  induction lines as [|raw rest IH]; simpl.
  - destruct err; auto with gen.
  - destruct (Str.is_empty raw); [exact IH|].
    destruct (json_loads raw) as [j|]; [|exact IH].
    repeat (first [ apply only_responses_bind; [|intros ?]
                  | apply only_responses_if
                  | solve [auto with gen] ]).
Qed.

(** ** Request validation and routing *)

Lemma data_of_dict (d : dict) : py_or (JDict d) (JDict []) = JDict d.
Proof. destruct d; reflexivity. Qed.

(** [chat_stream] on a dict body, with the field reads spelled out. *)
Lemma chat_stream_dict (d : dict) :
  chat_stream (JDict d) =
  obind (py_strip (message_field d)) (fun message =>
  obind (py_strip (provider_field d)) (fun provider =>
  if Str.is_empty message && negb (truthy (history_field d))
  then Ok (Json (error_record "message is required") 400)
  else Ok (Stream (if String.eqb (Str.lower provider) "ollama"
                   then ollama_stream_fn else gemini_cli_stream_fn)
                  message (history_field d)))).
Proof.
  unfold chat_stream. rewrite data_of_dict. simpl.
  fold (message_field d) (history_field d) (provider_field d).
  destruct (py_strip (message_field d)); reflexivity.
Qed.

(** C3, as stated, fails: a provider that is neither of the two known
    names is not served by the HTTP backend; [chat_stream] hands the
    request to [gemini_cli_stream]. *)
Lemma unrecognized_provider_goes_to_process :
  known_provider "foo" = false /\
  chat_stream (JDict [("message", JStr "hi"); ("provider", JStr "foo")])
  = Ok (Stream gemini_cli_stream_fn "hi" (JList [])).
Proof. split; reflexivity. Qed.

(** C3, amended: for every streaming request that [chat_stream] accepts,
    a provider that is missing (or null, or empty) is served by the HTTP
    backend, and a provider string [p] is served by the HTTP backend when
    [p], trimmed and lowercased, is "ollama", and by the process backend
    for every other string, known or not. *)
Theorem chat_stream_routing (d : dict) (gen : generator)
    (message : string) (messages : json) :
  chat_stream (JDict d) = Ok (Stream gen message messages) ->
  (truthy (dict_get "provider" d) = false -> gen = ollama_stream_fn) /\
  (forall p, dict_get "provider" d = JStr p -> p <> "" ->
             gen = generator_for p).
Proof.
  rewrite chat_stream_dict. unfold provider_field, py_or.
  intros H. split.
  - intros Hp. rewrite Hp in H. simpl in H.
    destruct (py_strip (message_field d)); simpl in H; [|discriminate].
    destruct (Str.is_empty a && negb (truthy (history_field d)));
      congruence.
  - intros p Hp Hne. rewrite Hp in H.
    assert (Ht : truthy (JStr p) = true)
      by (destruct p; [congruence|reflexivity]).
    rewrite Ht in H. simpl in H.
    destruct (py_strip (message_field d)); simpl in H; [|discriminate].
    unfold generator_for.
    destruct (Str.is_empty a && negb (truthy (history_field d)));
      congruence.
Qed.

Lemma chat_stream_routing_witness :
  (truthy (dict_get "provider" [("message", JStr "hi");
                                ("provider", JStr " Gemini ")]) = false ->
   gemini_cli_stream_fn = ollama_stream_fn) /\
  (forall p, dict_get "provider" [("message", JStr "hi");
                                  ("provider", JStr " Gemini ")] = JStr p ->
             p <> "" -> gemini_cli_stream_fn = generator_for p).
Proof.
  apply (chat_stream_routing
           [("message", JStr "hi"); ("provider", JStr " Gemini ")]
           gemini_cli_stream_fn "hi" (JList [])).
  reflexivity.
Defined.




Lemma chat_stream_Stream_inv (d : dict) (gen : generator)
    (message : string) (messages : json) :
  chat_stream (JDict d) = Ok (Stream gen message messages) ->
  py_strip (message_field d) = Ok message /\
  messages = history_field d /\
  Str.is_empty message && negb (truthy messages) = false.
Proof.
  rewrite chat_stream_dict.
  destruct (py_strip (message_field d)) as [m|]; simpl; [|discriminate].
  destruct (py_strip (provider_field d)) as [p|]; simpl; [|discriminate].
  destruct (Str.is_empty m && negb (truthy (history_field d))) eqn:E;
    [discriminate|].
  intros H. injection H as _ <- <-. auto.
Qed.

(** ** The process backend *)

Section Process.

Variable json_loads : string -> option json.
Variable json_dumps : json -> string.
Variable w : world.

(** Once the child runs, the generator is the line loop followed, on
    every exit, by one [terminate()] whose failure is dropped. *)
Lemma gemini_cli_stream_launched (message : string) (proc : process)
    (s : gstate) :
  subprocess_Popen w (gemini_args w message) = Launched proc ->
  gemini_cli_stream json_dumps w message s =
  let (o, s1) :=
    gemini_lines json_dumps (stdout proc) (stdout_error proc)
      {| demand := demand s;
         trace := (trace s ++ [Popen (gemini_args w message)])%list |} in
  (o, {| demand := demand s1; trace := (trace s1 ++ [Terminate])%list |}).
Proof.
  intros H. unfold gemini_cli_stream. fold (gemini_args w message).
  unfold bind at 1. unfold emit at 1. rewrite H.
  unfold try_finally, try_except, try_catch, bind, emit, raise, ret.
  destruct (gemini_lines _ _ _ _) as [o s1].
  destruct (terminate_error proc); reflexivity.
Qed.

Lemma gemini_lines_ends (lines : list string) (err : option string)
    (s : gstate) :
  let o := fst (gemini_lines json_dumps lines err s) in
  o = Ok tt \/ o = Raise GeneratorExit \/
  exists e, err = Some e /\ o = Raise (Exception e).
Proof.
  revert s. induction lines as [|line rest IH]; intros s; simpl.
  - destruct err as [e|]; simpl; eauto.
  - destruct (Str.is_empty (Str.rstrip_newline line)); [apply IH|].
    unfold bind, yield.
    destruct (demand s) as [n|]; [destruct (n <=? 1)%nat|];
      simpl; auto; apply IH.
Qed.

(** With a consumer that iterates to the end and an output that reads
    without error, every non-blank line is yielded, in order. *)
Lemma gemini_lines_exhausted (lines : list string) (s : gstate) :
  demand s = None ->
  gemini_lines json_dumps lines None s =
  (Ok tt, {| demand := None;
             trace := (trace s
                       ++ map (fun l => yield_response json_dumps (JStr l))
                              (non_blank_lines lines))%list |}).
Proof.
  revert s. induction lines as [|line rest IH]; intros [d t] Hd;
    simpl in Hd; subst d; simpl.
  - unfold ret. now rewrite app_nil_r.
  - unfold non_blank_lines. simpl.
    destruct (Str.is_empty (Str.rstrip_newline line)) eqn:E; simpl.
    + apply (IH {| demand := None; trace := t |}). reflexivity.
    + unfold bind, yield. simpl.
      rewrite (IH {| demand := None; trace := _ |}) by reflexivity.
      simpl. rewrite <- app_assoc. reflexivity.
Qed.

Lemma gemini_cli_stream_launched_with (message : string) (proc : process)
    (s : gstate) :
  gemini_cli_stream json_dumps (with_process w (quiet_terminate proc))
                    message s =
  let (o, s1) :=
    gemini_lines json_dumps (stdout proc) (stdout_error proc)
      {| demand := demand s;
         trace := (trace s ++ [Popen (gemini_args w message)])%list |} in
  (o, {| demand := demand s1; trace := (trace s1 ++ [Terminate])%list |}).
Proof.
  unfold gemini_cli_stream, with_process, quiet_terminate, gemini_args,
    environ_get. simpl.
  unfold try_finally, try_except, try_catch, bind, emit, raise, ret. simpl.
  destruct (gemini_lines _ _ _ _) as [o s1]. reflexivity.
Qed.

(** A generator that was started has called [subprocess.Popen] first. *)
Lemma gemini_cli_stream_starts (message : string) (consumer : option nat) :
  consumer <> Some 0 ->
  exists o t,
    run (gemini_cli_stream json_dumps w message) consumer
    = (o, Popen (gemini_args w message) :: t).
Proof.
  intros Hc. unfold run.
  destruct (subprocess_Popen w (gemini_args w message)) as [e|proc] eqn:HL.
  - unfold gemini_cli_stream. fold (gemini_args w message).
    unfold bind, emit. rewrite HL. unfold yield. simpl.
    destruct consumer as [[|n]|]; [congruence| |];
      [destruct (S n <=? 1)%nat|]; simpl; eauto.
  - rewrite (gemini_cli_stream_launched message proc _ HL). simpl.
    destruct (gemini_lines_only_responses json_dumps (stdout proc)
                (stdout_error proc)
                {| demand := consumer;
                   trace := [Popen (gemini_args w message)] |}) as [vals Hv].
    destruct consumer as [[|n]|]; [congruence| |];
      destruct (gemini_lines _ _ _ _) as [o s1]; simpl in *;
      rewrite Hv; simpl; eauto.
Qed.

(** C7: when the child is launched, its output reads without error and
    the consumer iterates to the end, the stream is one
    [{"response": line}] chunk per non-blank line, the line end stripped,
    in order, and nothing for a blank line; for the lines "1", "", "2"
    it is exactly [{"response": "1"}] then [{"response": "2"}]. *)
Theorem process_stream_lines (message : string) (messages : json)
    (proc : process) :
  subprocess_Popen w (gemini_args w message) = Launched proc ->
  stdout_error proc = None ->
  let result :=
    serve json_loads json_dumps w
          (Stream gemini_cli_stream_fn message messages) None in
  fst result = Ok tt /\
  chunks (snd result) =
    map (fun l => _ndjson json_dumps (response_record (JStr l)))
        (non_blank_lines (stdout proc)) /\
  (stdout proc = ["1" ++ Str.nl; Str.nl; "2" ++ Str.nl] ->
   chunks (snd result) =
     [_ndjson json_dumps (response_record (JStr "1"));
      _ndjson json_dumps (response_record (JStr "2"))]).
Proof.
  intros HL He result.
  assert (E : result =
    (Ok tt, (Popen (gemini_args w message)
             :: map (fun l => yield_response json_dumps (JStr l))
                    (non_blank_lines (stdout proc)) ++ [Terminate])%list)).
  { unfold result, serve, call, run.
    rewrite (gemini_cli_stream_launched message proc _ HL), He.
    rewrite gemini_lines_exhausted by reflexivity. reflexivity. }
  assert (C : chunks (snd result) =
    map (fun l => _ndjson json_dumps (response_record (JStr l)))
        (non_blank_lines (stdout proc))).
  { rewrite E. simpl. rewrite chunks_app, app_nil_r.
    rewrite <- (map_map JStr (yield_response json_dumps)).
    now rewrite chunks_yield_response, map_map. }
  rewrite C. split; [now rewrite E|]. split; [reflexivity|].
  intros ->. reflexivity.
Qed.

(** C6: once the child is launched, however the generator ends (output
    exhausted, consumer closing it after any number of chunks, or the
    read raising), [terminate()] is called, once, as the last event, and
    an exception it raises changes nothing: the outcome and the trace
    are those of a child whose [terminate()] succeeds. *)
Theorem process_always_terminated (message : string) (proc : process)
    (consumer : option nat) :
  subprocess_Popen w (gemini_args w message) = Launched proc ->
  consumer <> Some 0 ->
  let result := run (gemini_cli_stream json_dumps w message) consumer in
  (exists vals,
     snd result = (Popen (gemini_args w message)
                   :: map (yield_response json_dumps) vals
                   ++ [Terminate])%list) /\
  ends_as proc (fst result) /\
  result = run (gemini_cli_stream json_dumps
                  (with_process w (quiet_terminate proc)) message) consumer.
Proof.
  intros HL Hc result.
  assert (E : result =
    let (o, s1) :=
      gemini_lines json_dumps (stdout proc) (stdout_error proc)
        {| demand := consumer; trace := [Popen (gemini_args w message)] |} in
    (o, (trace s1 ++ [Terminate])%list)).
  { unfold result, run.
    rewrite (gemini_cli_stream_launched message proc _ HL). simpl.
    destruct consumer as [[|n]|]; [congruence| |];
      destruct (gemini_lines _ _ _ _); reflexivity. }
  split; [|split].
  - rewrite E.
    destruct (gemini_lines_only_responses json_dumps (stdout proc)
                (stdout_error proc)
                {| demand := consumer;
                   trace := [Popen (gemini_args w message)] |}) as [vals Hv].
    destruct (gemini_lines _ _ _ _) as [o s1]. simpl in *.
    exists vals. now rewrite Hv.
  - rewrite E.
    pose proof (gemini_lines_ends (stdout proc) (stdout_error proc)
                  {| demand := consumer;
                     trace := [Popen (gemini_args w message)] |}) as H.
    destruct (gemini_lines _ _ _ _) as [o s1]. exact H.
  - rewrite E. unfold run.
    rewrite (gemini_cli_stream_launched_with message proc). simpl.
    destruct consumer as [[|n]|]; [congruence| |];
      destruct (gemini_lines _ _ _ _); reflexivity.
Qed.

(** C10: two accepted requests with the same message that are routed to
    the process backend are served identically, whatever their
    histories: same command line, same chunks, same outcome. When the
    message is empty (so the history is not), the child is launched with
    the empty string as its prompt argument. *)
Theorem process_backend_ignores_history (d1 d2 : dict)
    (m1 m2 : string) (h1 h2 : json) (consumer : option nat) :
  dict_get "message" d1 = dict_get "message" d2 ->
  chat_stream (JDict d1) = Ok (Stream gemini_cli_stream_fn m1 h1) ->
  chat_stream (JDict d2) = Ok (Stream gemini_cli_stream_fn m2 h2) ->
  serve json_loads json_dumps w (Stream gemini_cli_stream_fn m1 h1) consumer
  = serve json_loads json_dumps w (Stream gemini_cli_stream_fn m2 h2) consumer
  /\
  (m1 = "" ->
   truthy h1 = true /\
   (consumer <> Some 0 ->
    exists o t,
      serve json_loads json_dumps w (Stream gemini_cli_stream_fn m1 h1)
            consumer
      = (o, Popen [environ_get w "GEMINI_CMD" "gemini"; "stream"; "-m";
                   environ_get w "GEMINI_MODEL" "gemini-1.5-flash";
                   "-p"; ""] :: t))).
Proof.
  intros Hm H1 H2.
  apply chat_stream_Stream_inv in H1 as (S1 & _ & V1).
  apply chat_stream_Stream_inv in H2 as (S2 & _ & _).
  unfold message_field in S1, S2. rewrite Hm in S1.
  assert (m1 = m2) as <- by congruence.
  split; [reflexivity|]. intros ->. simpl in V1.
  split; [now destruct (truthy h1)|]. intros Hc.
  unfold serve, call.
  destruct (gemini_cli_stream_starts "" consumer Hc) as (o & t & E).
  exists o, t. exact E.
Qed.

(** C5, the process half, at a child whose output stops decoding after
    one line: the exception of the read leaves the generator, after the
    one chunk and the [terminate()]; no [{"error": ...}] chunk is
    yielded. *)
Theorem process_read_failure_escapes :
  serve json_loads json_dumps (with_process offline garbled)
        (Stream gemini_cli_stream_fn "hi" (JList [])) None
  = (Raise (Exception "'utf-8' codec can't decode byte 0xff"),
     [Popen ["gemini"; "stream"; "-m"; "gemini-1.5-flash"; "-p"; "hi"];
      Yield (_ndjson json_dumps (response_record (JStr "ok")));
      Terminate]).
Proof. reflexivity. Qed.


End Process.

Lemma process_stream_lines_witness :
  let result :=
    serve (fun _ => None) (fun _ => "{}") (with_process offline one_blank_two)
          (Stream gemini_cli_stream_fn "count" (JList [])) None in
  fst result = Ok tt /\
  chunks (snd result) =
    map (fun l => _ndjson (fun _ => "{}") (response_record (JStr l)))
        (non_blank_lines (stdout one_blank_two)) /\
  (stdout one_blank_two = ["1" ++ Str.nl; Str.nl; "2" ++ Str.nl] ->
   chunks (snd result) =
     [_ndjson (fun _ => "{}") (response_record (JStr "1"));
      _ndjson (fun _ => "{}") (response_record (JStr "2"))]).
Proof.
  apply (process_stream_lines (fun _ => None) (fun _ => "{}")
           (with_process offline one_blank_two) "count" (JList [])
           one_blank_two); reflexivity.
Defined.

Lemma process_always_terminated_witness :
  let result :=
    run (gemini_cli_stream (fun _ => "{}") (with_process offline garbled) "hi")
        (Some 1) in
  (exists vals,
     snd result = (Popen (gemini_args (with_process offline garbled) "hi")
                   :: map (yield_response (fun _ => "{}")) vals
                   ++ [Terminate])%list) /\
  ends_as garbled (fst result) /\
  result = run (gemini_cli_stream (fun _ => "{}")
                  (with_process (with_process offline garbled)
                                (quiet_terminate garbled)) "hi") (Some 1).
Proof.
  apply (process_always_terminated (fun _ => "{}")
           (with_process offline garbled) "hi" garbled (Some 1)).
  - reflexivity.
  - discriminate.
Defined.

Lemma process_backend_ignores_history_witness :
  let r1 := Stream gemini_cli_stream_fn "" (JList [turn "user" "a"]) in
  let r2 := Stream gemini_cli_stream_fn ""
                   (JList [turn "user" "b"; turn "assistant" "c"]) in
  serve (fun _ => None) (fun _ => "{}") offline r1 None
  = serve (fun _ => None) (fun _ => "{}") offline r2 None /\
  ("" = "" ->
   truthy (JList [turn "user" "a"]) = true /\
   (None <> Some 0 ->
    exists o t,
      serve (fun _ => None) (fun _ => "{}") offline r1 None
      = (o, Popen [environ_get offline "GEMINI_CMD" "gemini"; "stream"; "-m";
                   environ_get offline "GEMINI_MODEL" "gemini-1.5-flash";
                   "-p"; ""] :: t))).
Proof.
  apply (process_backend_ignores_history (fun _ => None) (fun _ => "{}")
           offline
           [("message", JStr ""); ("messages", JList [turn "user" "a"]);
            ("provider", JStr "gemini")]
           [("message", JStr "");
            ("messages", JList [turn "user" "b"; turn "assistant" "c"]);
            ("provider", JStr "Gemini")]); reflexivity.
Defined.


(** ** The HTTP backend *)

Section Http.

Variable json_loads : string -> option json.
Variable json_dumps : json -> string.
Variable w : world.

(** The handler of line 141 closes the generator: whatever the body did,
    the outcome is a normal end or the consumer's [close()], and at most
    one error record is added, after everything else. *)
Lemma try_except_yield_error (body : G unit) (prefix : string)
    (s : gstate) (t : list event) :
  trace (snd (body s)) = (trace s ++ t)%list ->
  exists o s' errs,
    try_except body
      (fun e => yield (_ndjson json_dumps
                         (error_record (prefix ++ exn_str e)))) s = (o, s') /\
    trace s' = (trace s ++ t ++ map (yield_error json_dumps) errs)%list /\
    (length errs <= 1)%nat /\
    (o = Ok tt \/ o = Raise GeneratorExit).
Proof.
  intros Ht. unfold try_except, try_catch.
  destruct (body s) as [[[]|e] s1]; simpl in Ht.
  - exists (Ok tt), s1, []. simpl. rewrite app_nil_r. auto.
  - destruct e as [m|m|]; simpl.
    1,2: unfold yield;
      destruct (demand s1) as [n|]; [destruct (n <=? 1)%nat|];
      do 2 eexists; exists [prefix ++ m]; simpl;
      rewrite Ht, <- app_assoc; eauto.
    exists (Raise GeneratorExit), s1, []. simpl. rewrite app_nil_r. auto.
Qed.

(** What follows the request: nothing when the connection fails, else
    response records and the closing of the response. *)
Lemma ollama_connection_trace (url : string) (payload : json) (s : gstate) :
  exists vals close,
    trace (snd
      (match requests_post w url payload with
       | ConnectFails e => raise (RequestException e)
       | Responds r =>
           try_finally
             (match status_error r with
              | Some e => raise (RequestException e)
              | None => ollama_lines json_loads json_dumps
                          (iter_lines r) (read_error r)
              end)
             (emit CloseResponse)
       end s))
    = (trace s ++ map (yield_response json_dumps) vals ++ close)%list /\
    (close = [] \/ close = [CloseResponse]).
Proof.
  destruct (requests_post w url payload) as [e|r].
  - exists [], []. simpl. rewrite app_nil_r. auto.
  - unfold try_finally, emit. destruct (status_error r) as [e|].
    + exists [], [CloseResponse]. simpl. auto.
    + destruct (ollama_lines_only_responses json_loads json_dumps
                  (iter_lines r) (read_error r) s) as [vals Hv].
      destruct (ollama_lines _ _ _ _ s) as [o s1]. simpl in *.
      exists vals, [CloseResponse]. rewrite Hv, <- app_assoc. auto.
Qed.

(** The shape of every run of [ollama_stream]: the request, response
    records, the closing of the response, at most one error record; and
    no exception leaves the generator. *)
Lemma ollama_stream_trace (message : string) (messages : json) (s : gstate) :
  exists o s' vals close errs,
    ollama_stream json_loads json_dumps w message messages s = (o, s') /\
    trace s' = (trace s ++ posts w message messages
                ++ map (yield_response json_dumps) vals ++ close
                ++ map (yield_error json_dumps) errs)%list /\
    (close = [] \/ close = [CloseResponse]) /\
    (length errs <= 1)%nat /\
    (o = Ok tt \/ o = Raise GeneratorExit).
Proof.
  unfold ollama_stream.
  match goal with |- context [try_except ?b _] => set (body := b) end.
  assert (B : exists vals close,
    trace (snd (body s))
    = (trace s ++ posts w message messages
       ++ map (yield_response json_dumps) vals ++ close)%list /\
    (close = [] \/ close = [CloseResponse])).
  { subst body. unfold posts, ollama_request.
    destruct (truthy messages); [destruct (py_list messages) as [l|e]|];
      simpl obind; cbv iota.
    2: { exists [], []. simpl. rewrite app_nil_r. auto. }
    all: rewrite ?bind_lift_Ok, ?bind_ret; cbv beta iota;
      rewrite bind_emit;
      match goal with
      | |- context [requests_post w ?u ?p] =>
          destruct (ollama_connection_trace u p
                      {| demand := demand s;
                         trace := (trace s ++ [Post u p])%list |})
            as (vals & close & Hv & Hc)
      end;
      exists vals, close; split; [|exact Hc].
    - destruct (Str.is_empty message); simpl in *;
        rewrite Hv, <- app_assoc; reflexivity.
    - simpl in *. rewrite Hv, <- app_assoc. reflexivity. }
  destruct B as (vals & close & Hb & Hc).
  destruct (try_except_yield_error body "ollama stream failed: " s _ Hb)
    as (o & s' & errs & E & Ht & Hl & Ho).
  exists o, s', vals, close, errs. rewrite E, Ht, <- !app_assoc. auto.
Qed.

Lemma bind_ext {A B} (m : G A) (f g : A -> G B) (s : gstate) :
  (forall a s', f a s' = g a s') -> bind m f s = bind m g s.
Proof. intros H. unfold bind. destruct (m s) as [[a|e] s']; auto. Qed.

(** One dict fragment, as the extraction rule has it. *)
Lemma ollama_lines_dict (raw : string) (rest : list string)
    (err : option string) (d : dict) (s : gstate) :
  Str.is_empty raw = false ->
  json_loads raw = Some (JDict d) ->
  ollama_lines json_loads json_dumps (raw :: rest) err s =
  bind (match fragment_record d with
        | Some r => yield (_ndjson json_dumps r)
        | None => ret tt
        end)
       (fun _ => if fragment_done d then ret tt
                 else ollama_lines json_loads json_dumps rest err) s.
Proof.
  intros Hr Hj. simpl. rewrite Hr, Hj.
  unfold py_in, py_get, py_getitem, has_key, fragment_record, fragment_done,
    dict_get, py_or.
  destruct (lookup "response" d) as [v|]; [destruct (truthy v) eqn:Tv|];
    (destruct (lookup "message" d) as [[| | | | | |m]|]);
    unfold bind, lift, ret; simpl; rewrite ?Tv; simpl;
    try (destruct (lookup "content" m) as [c|];
         [destruct (truthy c) eqn:Tc|]; simpl; rewrite ?Tc; simpl);
    reflexivity.
Qed.

Lemma ollama_lines_skip (raw : string) (rest : list string)
    (err : option string) :
  json_loads raw = None ->
  ollama_lines json_loads json_dumps (raw :: rest) err
  = ollama_lines json_loads json_dumps rest err.
Proof. intros H. simpl. rewrite H. now destruct (Str.is_empty raw). Qed.

Lemma ollama_lines_skip_inside (pre post : list string) (raw : string)
    (err : option string) (s : gstate) :
  json_loads raw = None ->
  ollama_lines json_loads json_dumps (pre ++ raw :: post) err s
  = ollama_lines json_loads json_dumps (pre ++ post) err s.
Proof.
  intros H. revert s. induction pre as [|l pre IH]; intros s.
  - simpl app. now rewrite ollama_lines_skip.
  - simpl. destruct (Str.is_empty l); [apply IH|].
    destruct (json_loads l) as [j|]; [|apply IH].
    repeat (apply bind_ext; intros ? ?).
    destruct (truthy _); [reflexivity | apply IH].
Qed.

(** C1: a line that parses to a dict is handled by the extraction rule:
    a truthy [response] is yielded as [{"response": value}]; failing
    that, the truthy [content] of a dict [message] is; and a truthy
    [done] ends the loop after this fragment, the remaining lines unread.
    So the fragments [{"response":"a","done":false}],
    [{"response":"b","done":true}] give the chunks for "a" and "b" and
    the end of the stream, whatever follows them on the connection; and
    the chat-shaped fragment with content "x" gives [{"response":"x"}]. *)
Theorem ollama_fragment_rule :
  (forall raw rest err d s,
     Str.is_empty raw = false ->
     json_loads raw = Some (JDict d) ->
     ollama_lines json_loads json_dumps (raw :: rest) err s =
     bind (match fragment_record d with
           | Some r => yield (_ndjson json_dumps r)
           | None => ret tt
           end)
          (fun _ => if fragment_done d then ret tt
                    else ollama_lines json_loads json_dumps rest err) s) /\
  (forall message raw_a raw_b more err,
     Str.is_empty raw_a = false ->
     Str.is_empty raw_b = false ->
     json_loads raw_a = Some fragment_a ->
     json_loads raw_b = Some fragment_b_done ->
     serve json_loads json_dumps
           (with_reply w (reply_lines (raw_a :: raw_b :: more) err))
           (Stream ollama_stream_fn message (JList [])) None
     = (Ok tt,
        [Post (OLLAMA_BASE w ++ "/api/generate")
              (JDict [("model", JStr (MODEL w)); ("prompt", JStr message);
                      ("stream", JBool true)]);
         Yield (_ndjson json_dumps (response_record (JStr "a")));
         Yield (_ndjson json_dumps (response_record (JStr "b")));
         CloseResponse])) /\
  fragment_record fragment_chat_x = Some (response_record (JStr "x")).
Proof.
  split; [|split].
  - intros. now apply ollama_lines_dict.
  - intros message raw_a raw_b more err Ea Eb Ha Hb.
    unfold serve, call, run, ollama_stream, try_except, try_catch.
    simpl truthy. cbv iota. rewrite bind_ret. cbv beta iota.
    rewrite bind_emit. unfold try_finally. cbn -[ollama_lines].
    rewrite (ollama_lines_dict raw_a _ _ _ _ Ea Ha).
    unfold bind at 1. cbn -[ollama_lines].
    rewrite (ollama_lines_dict raw_b _ _ _ _ Eb Hb).
    reflexivity.
  - reflexivity.
Qed.

(** C8: a line that [json.loads] rejects is passed over: the loop goes
    on with the next line, and the whole response, for every consumer,
    is the one served had the line not been received: no chunk for it,
    no error record, no early end. *)
Theorem malformed_line_skipped (raw : string) :
  json_loads raw = None ->
  (forall rest err,
     ollama_lines json_loads json_dumps (raw :: rest) err
     = ollama_lines json_loads json_dumps rest err) /\
  (forall pre post err message messages consumer,
     serve json_loads json_dumps
           (with_reply w (reply_lines (pre ++ raw :: post) err))
           (Stream ollama_stream_fn message messages) consumer
     = serve json_loads json_dumps
             (with_reply w (reply_lines (pre ++ post) err))
             (Stream ollama_stream_fn message messages) consumer).
Proof.
  intros H. split.
  - intros. now apply ollama_lines_skip.
  - intros pre post err message messages consumer.
    unfold serve, call, run.
    assert (E : forall s,
      ollama_stream json_loads json_dumps
        (with_reply w (reply_lines (pre ++ raw :: post) err))
        message messages s
      = ollama_stream json_loads json_dumps
          (with_reply w (reply_lines (pre ++ post) err))
          message messages s).
    { intros s. unfold ollama_stream, try_except, try_catch.
      match goal with
      | |- match ?a s with _ => _ end = match ?b s with _ => _ end =>
          assert (Eb : a s = b s); [|now rewrite Eb]
      end.
      apply bind_ext. intros [url payload] s1.
      apply bind_ext. intros _ s2. simpl.
      unfold try_finally. now rewrite ollama_lines_skip_inside. }
    destruct consumer as [[|n]|]; [reflexivity| |]; now rewrite E.
Qed.

End Http.

Lemma ollama_fragment_rule_witness :
  serve loads_ABC (fun _ => "{}")
        (with_reply offline (reply_lines ["A"; "B"; "C"] (Some "timed out")))
        (Stream ollama_stream_fn "hi" (JList [])) None
  = (Ok tt,
     [Post (OLLAMA_BASE offline ++ "/api/generate")
           (JDict [("model", JStr (MODEL offline)); ("prompt", JStr "hi");
                   ("stream", JBool true)]);
      Yield (_ndjson (fun _ => "{}") (response_record (JStr "a")));
      Yield (_ndjson (fun _ => "{}") (response_record (JStr "b")));
      CloseResponse]).
Proof.
  apply (proj1 (proj2 (ollama_fragment_rule loads_ABC (fun _ => "{}")
                         offline))); reflexivity.
Defined.

Lemma malformed_line_skipped_witness :
  (forall rest err,
     ollama_lines loads_ABC (fun _ => "{}") ("<html>" :: rest) err
     = ollama_lines loads_ABC (fun _ => "{}") rest err) /\
  (forall pre post err message messages consumer,
     serve loads_ABC (fun _ => "{}")
           (with_reply offline (reply_lines (pre ++ "<html>" :: post) err))
           (Stream ollama_stream_fn message messages) consumer
     = serve loads_ABC (fun _ => "{}")
             (with_reply offline (reply_lines (pre ++ post) err))
             (Stream ollama_stream_fn message messages) consumer).
Proof.
  apply (malformed_line_skipped loads_ABC (fun _ => "{}") offline "<html>").
  reflexivity.
Defined.

(** Failures of the HTTP backend end in one error record: a refused
    connection and a failure status each give the request, the error
    record, and the normal end of the generator. *)
Lemma ollama_stream_degrades
    (json_loads : string -> option json) (json_dumps : json -> string)
    (w : world) (message : string) (e : string) :
  let url := OLLAMA_BASE w ++ "/api/generate" in
  let payload := JDict [("model", JStr (MODEL w)); ("prompt", JStr message);
                        ("stream", JBool true)] in
  let result :=
    run (ollama_stream json_loads json_dumps w message (JList [])) None in
  (requests_post w url payload = ConnectFails e ->
   result = (Ok tt, [Post url payload;
                     yield_error json_dumps ("ollama stream failed: " ++ e)]))
  /\
  (forall r, requests_post w url payload = Responds r ->
             status_error r = Some e ->
   result = (Ok tt, [Post url payload; CloseResponse;
                     yield_error json_dumps ("ollama stream failed: " ++ e)])).
Proof.
  intros url payload result. subst result.
  unfold run, ollama_stream, try_except, try_catch.
  simpl truthy. cbv iota. rewrite bind_ret. cbv beta iota.
  rewrite bind_emit. fold url payload. split.
  - intros ->. reflexivity.
  - intros r -> Hs. unfold try_finally. rewrite Hs. reflexivity.
Qed.

(** ** Both backends *)

Lemma run_started (g : G unit) (consumer : option nat) :
  consumer <> Some 0 ->
  run g consumer =
  let (o, s) := g {| demand := consumer; trace := [] |} in (o, trace s).
Proof. destruct consumer as [[|n]|]; [congruence | reflexivity..]. Qed.

Lemma chunks_posts (w : world) (message : string) (messages : json) :
  chunks (posts w message messages) = [].
Proof.
  unfold posts. now destruct (ollama_request w message messages) as [[? ?]|].
Qed.

Lemma ollama_run_records
    (json_loads : string -> option json) (json_dumps : json -> string)
    (w : world) (message : string) (messages : json) (consumer : option nat) :
  let result :=
    run (ollama_stream json_loads json_dumps w message messages) consumer in
  (fst result = Ok tt \/ fst result = Raise GeneratorExit) /\
  exists recs,
    chunks (snd result) = map (_ndjson json_dumps) recs /\
    error_terminal recs = true.
Proof.
  destruct consumer as [[|n]|] eqn:Ec.
  { simpl. split; [auto|]. exists []. auto. }
  all: rewrite run_started by discriminate;
    match goal with
    | |- context [ollama_stream _ _ _ _ _ ?s] =>
        destruct (ollama_stream_trace json_loads json_dumps w message
                    messages s)
          as (o & s' & vals & close & errs & E & Ht & Hc & Hl & Ho)
    end;
    rewrite E; simpl fst; simpl snd; split; [exact Ho|];
    exists (map response_record vals ++ map error_record errs)%list;
    split; [|now apply error_terminal_shape];
    rewrite Ht; simpl app;
    rewrite !chunks_app, chunks_posts, chunks_yield_response,
      chunks_yield_error, map_app, !map_map;
    assert (chunks close = []) as -> by (destruct Hc; subst; reflexivity);
    reflexivity.
Qed.

Lemma gemini_run_launch_fails (json_dumps : json -> string) (w : world)
    (message e : string) (consumer : option nat) :
  subprocess_Popen w (gemini_args w message) = LaunchFails e ->
  consumer <> Some 0 ->
  let result := run (gemini_cli_stream json_dumps w message) consumer in
  (fst result = Ok tt \/ fst result = Raise GeneratorExit) /\
  snd result =
    [Popen (gemini_args w message);
     Yield (_ndjson json_dumps
              (error_record ("failed to start gemini cli: " ++ e)))].
Proof.
  intros HL Hc. rewrite run_started by assumption.
  unfold gemini_cli_stream. fold (gemini_args w message).
  rewrite bind_emit, HL. unfold yield. simpl.
  destruct consumer as [n|]; [destruct (n <=? 1)%nat|]; simpl; auto.
Qed.

Lemma gemini_run_launched (json_dumps : json -> string) (w : world)
    (message : string) (proc : process) (consumer : option nat) :
  subprocess_Popen w (gemini_args w message) = Launched proc ->
  consumer <> Some 0 ->
  exists vals,
    snd (run (gemini_cli_stream json_dumps w message) consumer) =
    (Popen (gemini_args w message)
     :: map (yield_response json_dumps) vals ++ [Terminate])%list.
Proof.
  intros HL Hc. rewrite run_started by assumption.
  rewrite (gemini_cli_stream_launched json_dumps w message proc _ HL).
  simpl.
  destruct (gemini_lines_only_responses json_dumps (stdout proc)
              (stdout_error proc)
              {| demand := consumer;
                 trace := [Popen (gemini_args w message)] |}) as [vals Hv].
  destruct (gemini_lines _ _ _ _) as [o s1]. simpl in *.
  exists vals. now rewrite Hv.
Qed.

(** C2: in every stream, of either backend and under every consumer, the
    chunks are the serialisation of a sequence of records in which
    nothing follows an error record, and a stream that holds an error
    record ends there, by the normal end of the generator or by the
    consumer closing it. When the child cannot be launched, the stream
    is the one error record. *)
Theorem error_record_is_terminal
    (json_loads : string -> option json) (json_dumps : json -> string)
    (w : world) (gen : generator) (message : string) (messages : json)
    (consumer : option nat) :
  let result :=
    serve json_loads json_dumps w (Stream gen message messages) consumer in
  (exists recs,
     chunks (snd result) = map (_ndjson json_dumps) recs /\
     error_terminal recs = true /\
     (has_error recs = true ->
      fst result = Ok tt \/ fst result = Raise GeneratorExit)) /\
  (forall e,
     gen = gemini_cli_stream_fn ->
     subprocess_Popen w (gemini_args w message) = LaunchFails e ->
     consumer <> Some 0 ->
     snd result =
       [Popen (gemini_args w message);
        Yield (_ndjson json_dumps
                 (error_record ("failed to start gemini cli: " ++ e)))]).
Proof.
  intros result. subst result. unfold serve, call. split.
  - destruct gen.
    + destruct (ollama_run_records json_loads json_dumps w message messages
                  consumer) as (Ho & recs & Hr & Ht).
      exists recs. auto.
    + destruct consumer as [[|n]|] eqn:Ec.
      { exists []. simpl. auto. }
      all: rewrite <- Ec;
        assert (Hc : consumer <> Some 0) by (rewrite Ec; discriminate);
        clear Ec;
        destruct (subprocess_Popen w (gemini_args w message))
          as [e|proc] eqn:HL.
      1,3: destruct (gemini_run_launch_fails json_dumps w message e consumer
                       HL Hc) as [Ho Hs];
        exists [error_record ("failed to start gemini cli: " ++ e)];
        rewrite Hs; simpl; auto.
      all: destruct (gemini_run_launched json_dumps w message proc consumer
                       HL Hc) as [vals Hv];
        exists (map response_record vals);
        rewrite Hv, has_error_responses; simpl;
        rewrite chunks_app, chunks_yield_response, map_map; simpl;
        rewrite app_nil_r;
        split; [reflexivity|];
        split; [|discriminate];
        generalize (error_terminal_shape vals [] (Nat.le_0_l 1));
        simpl; now rewrite app_nil_r.
  - intros e -> HL Hc.
    apply (gemini_run_launch_fails json_dumps w message e consumer HL Hc).
Qed.

Lemma error_record_is_terminal_witness :
  snd (serve (fun _ => None) (fun _ => "{}") offline
             (Stream gemini_cli_stream_fn "hi" (JList [])) None)
  = [Popen (gemini_args offline "hi");
     Yield (_ndjson (fun _ => "{}")
              (error_record ("failed to start gemini cli: "
                             ++ "No such file or directory")))].
Proof.
  apply (proj2 (error_record_is_terminal (fun _ => None) (fun _ => "{}")
                  offline gemini_cli_stream_fn "hi" (JList []) None)).
  - reflexivity.
  - reflexivity.
  - discriminate.
Defined.

(** ** The limits on the message and on the history *)

(** [chat] applies the limits of lines 58-63 before it calls the
    backend: of a history of 25 turns the last 20 are posted, with the
    message behind them, and of a message of 8001 characters the first
    8000. *)
Lemma chat_keeps_last_20 :
  posted_turns
    (trace (snd (chat offline "POST"
                   (JDict [("message", JStr "hi");
                           ("messages", JList history25)])
                   {| demand := None; trace := [] |})))
  = Some 21.
Proof. vm_compute. reflexivity. Qed.

Lemma chat_truncates_message :
  posted_prompt_length
    (trace (snd (chat offline "POST" (JDict [("message", JStr message8001)])
                   {| demand := None; trace := [] |})))
  = Some (Z.to_nat 8000).
Proof. vm_compute. reflexivity. Qed.

(** [chat_stream] hands the message of 8001 characters to the backend
    whole. *)
Lemma chat_stream_sends_whole_message :
  chat_stream (JDict [("message", JStr message8001)])
  = Ok (Stream ollama_stream_fn message8001 (JList [])) /\
  posted_prompt_length
    (snd (serve (fun _ => None) (fun _ => "") offline
                (Stream ollama_stream_fn message8001 (JList [])) None))
  = Some (Z.to_nat 8001).
Proof. split; vm_compute; reflexivity. Qed.

(** C4 at a request with a history of 25 turns: [chat_stream] accepts it
    and passes the 25 turns on, and [ollama_stream] posts all of them,
    with the message as the 26th, whatever the backend answers. *)
Theorem chat_stream_sends_whole_history
    (json_loads : string -> option json) (json_dumps : json -> string)
    (w : world) :
  chat_stream (JDict [("message", JStr "hi"); ("messages", JList history25)])
  = Ok (Stream ollama_stream_fn "hi" (JList history25)) /\
  posted_turns
    (snd (serve json_loads json_dumps w
                (Stream ollama_stream_fn "hi" (JList history25)) None))
  = Some 26.
Proof.
  split; [reflexivity|].
  unfold serve, call. rewrite run_started by discriminate.
  destruct (ollama_stream_trace json_loads json_dumps w "hi"
              (JList history25) {| demand := None; trace := [] |})
    as (o & s' & vals & close & errs & E & Ht & _).
  rewrite E, Ht. reflexivity.
Qed.

(** * Further properties *)

(** ** The non-streaming handler *)

(** The first steps of [chat] on an accepted POST: the fields are read
    and the limits applied. *)
Ltac chat_open d m Hm Hp Ha :=
  unfold chat;
  change (String.eqb "POST" "GET") with false; cbv iota;
  rewrite data_of_dict; unfold py_get at 1 2 3; rewrite bind_lift_Ok;
  fold (message_field d); rewrite Hm, !bind_lift_Ok;
  fold (history_field d) (provider_field d);
  unfold provider_is_text in Hp;
  destruct (provider_field d); try discriminate;
  unfold py_strip; rewrite bind_lift_Ok, Ha;
  fold (limit_message m) (limit_history (history_field d)).

(** Case analysis on every scrutinee of the goal, innermost first. *)
Ltac split_matches :=
  repeat match goal with
         | |- context [match ?x with _ => _ end] =>
             first [ is_var x; destruct x
                   | lazymatch x with
                     | context [match _ with _ => _ end] => fail
                     | _ => destruct x eqn:?
                     end ]
         end.

Lemma chat_trace (w : world) (d : dict) (m : string) (s : gstate) :
  py_strip (message_field d) = Ok m ->
  provider_is_text d = true ->
  Str.is_empty m && negb (truthy (history_field d)) = false ->
  exists o,
    chat w "POST" (JDict d) s =
    (o, {| demand := demand s;
           trace := (trace s ++ chat_posts w (limit_message m)
                                  (limit_history (history_field d)))%list |}).
Proof.
  intros Hm Hp Ha. chat_open d m Hm Hp Ha.
  unfold chat_posts, chat_request, try_catch.
  destruct (truthy (limit_history (history_field d)));
    [destruct (py_list (limit_history (history_field d))) as [l|e]|];
    simpl obind; cbv iota; rewrite ?bind_lift_Ok, ?bind_lift_Raise.
  2: { unfold raise. destruct (is_RequestException e); simpl;
       destruct s; rewrite app_nil_r; eexists; reflexivity. }
  all: try (destruct (Str.is_empty (limit_message m)); simpl negb; cbv iota);
    rewrite bind_emit; unfold bind, lift, ret, raise, py_get,
      py_get_default; split_matches; eexists; reflexivity.
Qed.

Lemma length_last_n {A} (n : nat) (l : list A) :
  length (last_n n l) = Nat.min n (length l).
Proof. unfold last_n. rewrite length_skipn. lia. Qed.

Lemma length_take (n : nat) (s : string) :
  (String.length (Str.take n s) <= n)%nat.
Proof.
  revert s. induction n as [|n IH]; intros [|c s]; simpl; try lia.
  specialize (IH s). lia.
Qed.

Lemma length_limit_message (m : string) :
  (Z.of_nat (String.length (limit_message m)) <= 8000)%Z.
Proof.
  unfold limit_message.
  destruct (Str.is_empty m) eqn:E; simpl.
  - destruct m; [simpl; lia | discriminate].
  - destruct (8000 <? Z.of_nat (String.length m))%Z eqn:L.
    + pose proof (length_take (Z.to_nat 8000) m) as H.
      apply Nat2Z.inj_le in H. rewrite Z2Nat.id in H by lia. exact H.
    + apply Z.ltb_ge in L. exact L.
Qed.

(** Whatever the method and the body, [chat] adds to the trace nothing,
    or its one request. *)
Lemma chat_events (w : world) (method : string) (body : json) (s : gstate) :
  exists t,
    trace (snd (chat w method body s)) = (trace s ++ t)%list /\
    (t = [] \/ exists url payload, t = [Post url payload]).
Proof.
  unfold chat, try_catch, bind, lift, ret, raise, emit.
  split_matches; cbn [snd trace];
    first [ exists []; rewrite app_nil_r; split; [reflexivity | now left]
          | eexists; split; [reflexivity | right; eauto] ].
Qed.

(** X1: [chat] reads the provider and then ignores it: two POST bodies
    with the same message and the same history, each with a provider
    that is missing or a string, get the same answer and leave the same
    trace; and the events [chat] adds are none, or its one HTTP request:
    no process is launched or terminated, whatever the provider says. *)
Theorem chat_ignores_provider (w : world) (d1 d2 : dict) (s : gstate) :
  message_field d1 = message_field d2 ->
  history_field d1 = history_field d2 ->
  provider_is_text d1 = true ->
  provider_is_text d2 = true ->
  chat w "POST" (JDict d1) s = chat w "POST" (JDict d2) s /\
  exists t,
    trace (snd (chat w "POST" (JDict d1) s)) = (trace s ++ t)%list /\
    (t = [] \/ exists url payload, t = [Post url payload]) /\
    filter process_event t = [].
Proof.
  unfold provider_is_text. intros Hm Hh H1 H2. split.
  - unfold chat.
    change (String.eqb "POST" "GET") with false. cbv iota.
    rewrite !data_of_dict. unfold py_get.
    rewrite !bind_lift_Ok. fold (message_field d1) (message_field d2).
    rewrite Hm. apply bind_ext. intros m s1. rewrite !bind_lift_Ok.
    fold (history_field d1) (history_field d2)
         (provider_field d1) (provider_field d2).
    rewrite Hh.
    destruct (provider_field d1); try discriminate.
    destruct (provider_field d2); try discriminate.
    unfold py_strip. rewrite !bind_lift_Ok. reflexivity.
  - destruct (chat_events w "POST" (JDict d1) s) as (t & Ht & Hs).
    exists t. split; [exact Ht|]. split; [exact Hs|].
    destruct Hs as [-> | (url & payload & ->)]; reflexivity.
Qed.

Lemma chat_ignores_provider_witness :
  chat offline "POST"
       (JDict [("message", JStr "hi"); ("provider", JStr "gemini")]) idle
  = chat offline "POST" (JDict [("message", JStr "hi")]) idle /\
  exists t,
    trace (snd (chat offline "POST"
                  (JDict [("message", JStr "hi"); ("provider", JStr "gemini")])
                  idle))
    = (trace idle ++ t)%list /\
    (t = [] \/ exists url payload, t = [Post url payload]) /\
    filter process_event t = [].
Proof.
  apply (chat_ignores_provider offline
           [("message", JStr "hi"); ("provider", JStr "gemini")]
           [("message", JStr "hi")] idle); reflexivity.
Defined.

(** X2: for an accepted POST whose history is a list, [chat] makes one
    request. Without history it goes to /api/generate with the message
    cut to at most 8000 characters as the prompt; with history it goes to
    /api/chat with the last 20 turns followed by the message, at most 21
    turns. *)
Theorem chat_limits (w : world) (d : dict) (m : string) (l : list json) :
  py_strip (message_field d) = Ok m ->
  provider_is_text d = true ->
  history_field d = JList l ->
  Str.is_empty m && negb (truthy (JList l)) = false ->
  let t := trace (snd (chat w "POST" (JDict d) idle)) in
  let user_turn := if Str.is_empty (limit_message m) then []
                   else [turn "user" (limit_message m)] in
  (Z.of_nat (String.length (limit_message m)) <= 8000)%Z /\
  (length (last_n 20 l ++ user_turn) <= 21)%nat /\
  (l = [] ->
   t = [Post (OLLAMA_BASE w ++ "/api/generate")
             (JDict [("model", JStr (MODEL w));
                     ("prompt", JStr (limit_message m));
                     ("stream", JBool false)])]) /\
  (l <> [] ->
   t = [Post (OLLAMA_BASE w ++ "/api/chat")
             (JDict [("model", JStr (MODEL w));
                     ("messages", JList (last_n 20 l ++ user_turn)%list);
                     ("stream", JBool false)])]).
Proof.
  intros Hm Hp Hl Ha t user_turn.
  assert (Ha' : Str.is_empty m && negb (truthy (history_field d)) = false)
    by now rewrite Hl.
  destruct (chat_trace w d m idle Hm Hp Ha') as [o E].
  subst t. rewrite E, Hl. simpl trace. clear E.
  split; [apply length_limit_message|]. split.
  - rewrite length_app, length_last_n. subst user_turn.
    destruct (Str.is_empty (limit_message m)); simpl length; lia.
  - split.
    + intros ->. reflexivity.
    + intros Hne. destruct l as [|x l]; [congruence|].
      unfold chat_posts, chat_request, limit_history.
      assert (Ht : truthy (JList (last_n 20 (x :: l))) = true).
      { pose proof (length_last_n 20 (x :: l)) as HL.
        destruct (last_n 20 (x :: l)); [simpl in HL; lia | reflexivity]. }
      rewrite Ht. simpl. subst user_turn.
      destruct (Str.is_empty (limit_message m));
        now rewrite ?app_nil_r.
Qed.

Lemma chat_limits_witness :
  let d := [("message", JStr message8001); ("messages", JList history25)] in
  let t := trace (snd (chat offline "POST" (JDict d) idle)) in
  let user_turn := if Str.is_empty (limit_message message8001) then []
                   else [turn "user" (limit_message message8001)] in
  (Z.of_nat (String.length (limit_message message8001)) <= 8000)%Z /\
  (length (last_n 20 history25 ++ user_turn) <= 21)%nat /\
  (history25 = [] ->
   t = [Post (OLLAMA_BASE offline ++ "/api/generate")
             (JDict [("model", JStr (MODEL offline));
                     ("prompt", JStr (limit_message message8001));
                     ("stream", JBool false)])]) /\
  (history25 <> [] ->
   t = [Post (OLLAMA_BASE offline ++ "/api/chat")
             (JDict [("model", JStr (MODEL offline));
                     ("messages",
                      JList (last_n 20 history25 ++ user_turn)%list);
                     ("stream", JBool false)])]).
Proof.
  apply (chat_limits offline
           [("message", JStr message8001); ("messages", JList history25)]
           message8001 history25); vm_compute; reflexivity.
Defined.

(** X3: when the backend refuses the connection, or answers with a
    failure status, [chat] answers 502 with the text of the exception,
    after its one request; no exception leaves the handler. *)
Theorem chat_backend_failure (w : world) (d : dict) (m e : string)
    (url : string) (payload : json) (s : gstate) :
  py_strip (message_field d) = Ok m ->
  provider_is_text d = true ->
  Str.is_empty m && negb (truthy (history_field d)) = false ->
  chat_request w (limit_message m) (limit_history (history_field d))
  = Ok (url, payload) ->
  (requests_post w url payload = ConnectFails e \/
   exists r, requests_post w url payload = Responds r /\
             status_error r = Some e) ->
  chat w "POST" (JDict d) s
  = (Ok (Json (error_record e) 502),
     {| demand := demand s; trace := (trace s ++ [Post url payload])%list |}).
Proof.
  intros Hm Hp Ha Hreq Hfail. chat_open d m Hm Hp Ha.
  unfold chat_request in Hreq. unfold try_catch.
  destruct (truthy (limit_history (history_field d)));
    [destruct (py_list (limit_history (history_field d))) as [l|x];
     [|discriminate]|];
    simpl in Hreq; injection Hreq as <- <-;
    rewrite ?bind_lift_Ok;
    try (destruct (Str.is_empty (limit_message m)); simpl negb; cbv iota);
    rewrite bind_emit;
    destruct Hfail as [-> | (r & -> & ->)]; reflexivity.
Qed.

Lemma chat_backend_failure_witness :
  chat offline "POST" (JDict [("message", JStr "hi")]) idle
  = (Ok (Json (error_record "connection refused") 502),
     {| demand := demand idle;
        trace := (trace idle
                  ++ [Post "http://localhost:11434/api/generate"
                           (JDict [("model", JStr "gpt-oss:20b");
                                   ("prompt", JStr "hi");
                                   ("stream", JBool false)])])%list |}).
Proof.
  apply (chat_backend_failure offline [("message", JStr "hi")] "hi"
           "connection refused"); try reflexivity.
  left. reflexivity.
Defined.

(** X4: when the backend answers with a JSON object [j], [chat] answers
    200 with [{"reply": ...}]: without history the reply is
    [j["response"]], with history it is the [content] of [j["message"]];
    a missing [response], [content] or [message] gives the empty
    string, and a [message] that is neither empty nor an object makes
    the handler raise. *)
Theorem chat_reply (w : world) (d : dict) (m : string)
    (url : string) (payload : json) (r : http_response) (j : dict)
    (s : gstate) :
  py_strip (message_field d) = Ok m ->
  provider_is_text d = true ->
  Str.is_empty m && negb (truthy (history_field d)) = false ->
  chat_request w (limit_message m) (limit_history (history_field d))
  = Ok (url, payload) ->
  requests_post w url payload = Responds r ->
  status_error r = None ->
  json_body r = Ok (JDict j) ->
  fst (chat w "POST" (JDict d) s)
  = if truthy (limit_history (history_field d))
    then match py_or (dict_get "message" j) (JDict []) with
         | JDict answer =>
             Ok (Json (JDict [("reply",
                               dict_get_default "content" (JStr "") answer)])
                      200)
         | _ => Raise (AttributeError "get")
         end
    else Ok (Json (JDict [("reply", dict_get_default "response" (JStr "") j)])
                  200).
Proof.
  intros Hm Hp Ha Hreq Hr Hs Hj. chat_open d m Hm Hp Ha.
  unfold chat_request in Hreq. unfold try_catch.
  destruct (truthy (limit_history (history_field d)));
    [destruct (py_list (limit_history (history_field d))) as [l|x];
     [|discriminate]|];
    simpl in Hreq; injection Hreq as <- <-;
    rewrite ?bind_lift_Ok;
    try (destruct (Str.is_empty (limit_message m)); simpl negb; cbv iota);
    rewrite bind_emit, Hr, Hs, Hj; unfold py_get; rewrite !bind_lift_Ok;
    try reflexivity;
    destruct (py_or (dict_get "message" j) (JDict [])); reflexivity.
Qed.

Lemma chat_reply_witness :
  let w := with_reply offline
             {| status_error := None; iter_lines := []; read_error := None;
                json_body := Ok (JDict [("response", JStr "hello")]) |} in
  fst (chat w "POST" (JDict [("message", JStr "hi")]) idle)
  = if truthy (limit_history (history_field [("message", JStr "hi")]))
    then match py_or (dict_get "message" [("response", JStr "hello")])
                     (JDict []) with
         | JDict answer =>
             Ok (Json (JDict [("reply",
                               dict_get_default "content" (JStr "") answer)])
                      200)
         | _ => Raise (AttributeError "get")
         end
    else Ok (Json (JDict [("reply",
                           dict_get_default "response" (JStr "")
                             [("response", JStr "hello")])]) 200).
Proof.
  intros w.
  apply (chat_reply w [("message", JStr "hi")] "hi"
           "http://localhost:11434/api/generate"
           (JDict [("model", JStr "gpt-oss:20b"); ("prompt", JStr "hi");
                   ("stream", JBool false)])
           {| status_error := None; iter_lines := []; read_error := None;
              json_body := Ok (JDict [("response", JStr "hello")]) |}
           [("response", JStr "hello")] idle); reflexivity.
Defined.

(** ** The streaming handler *)

Lemma rstrip_by_idem (p : ascii -> bool) (s : string) :
  Str.rstrip_by p (Str.rstrip_by p s) = Str.rstrip_by p s.
Proof.
  induction s as [|c r IH]; simpl; [reflexivity|].
  destruct (Str.rstrip_by p r) as [|c' r'] eqn:E.
  - destruct (p c) eqn:Pc; simpl; [reflexivity | now rewrite Pc].
  - simpl in *. now rewrite IH.
Qed.

Lemma lstrip_head (s : string) :
  Str.lstrip s = "" \/
  exists c r, Str.lstrip s = String c r /\ Str.isspace c = false.
Proof.
  induction s as [|c r IH]; simpl; [now left|].
  destruct (Str.isspace c) eqn:E; [exact IH | right; eauto].
Qed.

Lemma rstrip_keeps_head (c : ascii) (r : string) :
  Str.isspace c = false ->
  exists r', Str.rstrip (String c r) = String c r'.
Proof.
  intros H. unfold Str.rstrip. simpl.
  destruct (Str.rstrip_by Str.isspace r); rewrite ?H; eauto.
Qed.

Lemma strip_idem (s : string) : Str.strip (Str.strip s) = Str.strip s.
Proof.
  unfold Str.strip.
  destruct (lstrip_head s) as [-> | (c & r & -> & Hc)]; [reflexivity|].
  destruct (rstrip_keeps_head c r Hc) as [r' E].
  assert (L : Str.lstrip (Str.rstrip (String c r)) = Str.rstrip (String c r))
    by (rewrite E; simpl; now rewrite Hc).
  rewrite L. apply rstrip_by_idem.
Qed.

(** The answers of [chat] to an accepted POST are 200, 502 or an
    exception, never the 400 of the validation. *)
Lemma chat_accepted_not_400 (w : world) (d : dict) (m : string) (s : gstate) :
  py_strip (message_field d) = Ok m ->
  provider_is_text d = true ->
  Str.is_empty m && negb (truthy (history_field d)) = false ->
  fst (chat w "POST" (JDict d) s) <> Ok message_required.
Proof.
  intros Hm Hp Ha. chat_open d m Hm Hp Ha.
  unfold try_catch, message_required.
  destruct (truthy (limit_history (history_field d)));
    [destruct (py_list (limit_history (history_field d))) as [l|e]|];
    rewrite ?bind_lift_Ok, ?bind_lift_Raise.
  2: { unfold raise. destruct (is_RequestException e); simpl; discriminate. }
  all: try (destruct (Str.is_empty (limit_message m)); simpl negb; cbv iota);
    rewrite bind_emit; unfold bind, lift, ret, raise, py_get,
      py_get_default; split_matches; simpl; discriminate.
Qed.

(** X5: [chat] and [chat_stream] validate alike: for a body whose
    message and provider are missing or strings, one answers 400
    "message is required" exactly when the other does. *)
Theorem handlers_validate_alike (w : world) (d : dict) (s : gstate) :
  message_is_text d = true ->
  provider_is_text d = true ->
  chat_stream (JDict d) = Ok message_required <->
  fst (chat w "POST" (JDict d) s) = Ok message_required.
Proof.
  unfold message_is_text. intros Hm Hp.
  destruct (message_field d) as [| | | |m| |] eqn:Em; try discriminate.
  assert (Hs : py_strip (message_field d) = Ok (Str.strip m))
    by now rewrite Em.
  destruct (Str.is_empty (Str.strip m) && negb (truthy (history_field d)))
    eqn:Ha.
  - split; intros _.
    + unfold chat. change (String.eqb "POST" "GET") with false. cbv iota.
      rewrite data_of_dict. unfold py_get at 1 2 3. rewrite bind_lift_Ok.
      fold (message_field d). rewrite Hs, !bind_lift_Ok.
      fold (history_field d) (provider_field d).
      unfold provider_is_text in Hp.
      destruct (provider_field d); try discriminate.
      unfold py_strip. rewrite bind_lift_Ok, Ha. reflexivity.
    + rewrite chat_stream_dict, Hs. simpl.
      unfold provider_is_text in Hp.
      destruct (provider_field d); try discriminate.
      simpl. now rewrite Ha.
  - split; intros H.
    + rewrite chat_stream_dict, Hs in H. simpl in H.
      unfold provider_is_text in Hp.
      destruct (provider_field d); try discriminate.
      simpl in H. rewrite Ha in H. discriminate.
    + now apply (chat_accepted_not_400 w d (Str.strip m) s Hs Hp Ha) in H.
Qed.

Lemma handlers_validate_alike_witness :
  chat_stream (JDict [("message", JStr " ")]) = Ok message_required <->
  fst (chat offline "POST" (JDict [("message", JStr " ")]) idle)
  = Ok message_required.
Proof.
  apply (handlers_validate_alike offline [("message", JStr " ")] idle);
    reflexivity.
Defined.

(** X6: the message [chat_stream] hands to a generator is trimmed:
    stripping it again changes nothing, and it is empty only when there
    is a history. *)
Theorem chat_stream_message_trimmed (d : dict) (gen : generator)
    (message : string) (messages : json) :
  chat_stream (JDict d) = Ok (Stream gen message messages) ->
  Str.strip message = message /\
  (message = "" -> truthy messages = true).
Proof.
  intros H. apply chat_stream_Stream_inv in H as (Hs & _ & Ha).
  split.
  - destruct (message_field d); try discriminate.
    injection Hs as <-. apply strip_idem.
  - intros ->. simpl in Ha. now destruct (truthy messages).
Qed.

Lemma chat_stream_message_trimmed_witness :
  Str.strip "hi there" = "hi there" /\
  ("hi there" = "" -> truthy (JList []) = true).
Proof.
  apply (chat_stream_message_trimmed [("message", JStr "  hi there  ")]
           ollama_stream_fn "hi there" (JList [])).
  reflexivity.
Defined.

(** X7: a request of the wrong type is not answered by the validation:
    a body that is not an object raises, unless it is empty, null, zero
    or false, which counts as [{}]; a message, or a provider, that is
    neither empty nor a string raises whatever the other fields are. *)
Theorem chat_stream_type_errors :
  (forall body, is_dict body = false ->
     chat_stream body = if truthy body then Raise (AttributeError "get")
                        else Ok message_required) /\
  (forall d, message_is_text d = false ->
     chat_stream (JDict d) = Raise (AttributeError "strip")) /\
  (forall d, message_is_text d = true -> provider_is_text d = false ->
     chat_stream (JDict d) = Raise (AttributeError "strip")).
Proof.
  split; [|split].
  - intros body Hb. unfold chat_stream, py_or.
    destruct body as [| | | | |l|d]; try discriminate; simpl;
      try (destruct (truthy _); reflexivity); try reflexivity.
    + destruct b; reflexivity.
    + destruct (negb _); reflexivity.
    + destruct (negb _); reflexivity.
    + destruct (negb _); reflexivity.
    + destruct l; reflexivity.
  - intros d H. rewrite chat_stream_dict. unfold message_is_text in H.
    destruct (message_field d); try discriminate; reflexivity.
  - intros d Hm Hp. rewrite chat_stream_dict.
    unfold message_is_text in Hm. unfold provider_is_text in Hp.
    destruct (message_field d); try discriminate. simpl.
    destruct (provider_field d); try discriminate; reflexivity.
Qed.

Lemma chat_stream_type_errors_witness :
  chat_stream (JList [JInt 1]) = Raise (AttributeError "get") /\
  chat_stream (JDict [("message", JInt 5)]) = Raise (AttributeError "strip") /\
  chat_stream (JDict [("message", JStr "hi"); ("provider", JInt 5)])
  = Raise (AttributeError "strip").
Proof.
  destruct chat_stream_type_errors as (A & B & C).
  split; [|split].
  - apply (A (JList [JInt 1])). reflexivity.
  - apply (B [("message", JInt 5)]). reflexivity.
  - apply (C [("message", JStr "hi"); ("provider", JInt 5)]); reflexivity.
Defined.

(** ** The HTTP generator *)

Section HttpMore.

Variable json_loads : string -> option json.
Variable json_dumps : json -> string.
Variable w : world.

Lemma ollama_connection_closes (url : string) (payload : json) (s : gstate) :
  exists vals,
    trace (snd
      (match requests_post w url payload with
       | ConnectFails e => raise (RequestException e)
       | Responds r =>
           try_finally
             (match status_error r with
              | Some e => raise (RequestException e)
              | None => ollama_lines json_loads json_dumps
                          (iter_lines r) (read_error r)
              end)
             (emit CloseResponse)
       end s))
    = (trace s ++ map (yield_response json_dumps) vals
       ++ match requests_post w url payload with
          | Responds _ => [CloseResponse]
          | ConnectFails _ => []
          end)%list.
Proof.
  destruct (requests_post w url payload) as [e|r].
  - exists []. simpl. now rewrite app_nil_r.
  - unfold try_finally, emit. destruct (status_error r) as [e|].
    + exists []. reflexivity.
    + destruct (ollama_lines_only_responses json_loads json_dumps
                  (iter_lines r) (read_error r) s) as [vals Hv].
      destruct (ollama_lines _ _ _ _ s) as [o s1]. simpl in *.
      exists vals. now rewrite Hv, <- app_assoc.
Qed.

(** Every run of [ollama_stream]: the request, response records, the
    closing of the response that was obtained, at most one error
    record. *)
Lemma ollama_stream_trace_exact (message : string) (messages : json)
    (s : gstate) :
  exists o s' vals errs,
    ollama_stream json_loads json_dumps w message messages s = (o, s') /\
    trace s' = (trace s ++ posts w message messages
                ++ map (yield_response json_dumps) vals
                ++ closing w message messages
                ++ map (yield_error json_dumps) errs)%list /\
    (length errs <= 1)%nat.
Proof.
  unfold ollama_stream.
  match goal with |- context [try_except ?b _] => set (body := b) end.
  assert (B : exists vals,
    trace (snd (body s))
    = (trace s ++ posts w message messages
       ++ map (yield_response json_dumps) vals
       ++ closing w message messages)%list).
  { subst body. unfold closing, posts, ollama_request.
    destruct (truthy messages); [destruct (py_list messages) as [l|e]|];
      simpl obind; cbv iota.
    2: { exists []. simpl. now rewrite app_nil_r. }
    all: rewrite ?bind_lift_Ok, ?bind_ret; cbv beta iota;
      rewrite bind_emit;
      match goal with
      | |- context [requests_post w ?u ?p] =>
          destruct (ollama_connection_closes u p
                      {| demand := demand s;
                         trace := (trace s ++ [Post u p])%list |})
            as (vals & Hv)
      end;
      exists vals.
    - destruct (Str.is_empty message); simpl in *;
        rewrite Hv, <- app_assoc; reflexivity.
    - simpl in *. rewrite Hv, <- app_assoc. reflexivity. }
  destruct B as (vals & Hb).
  destruct (try_except_yield_error json_dumps body "ollama stream failed: "
              s _ Hb) as (o & s' & errs & E & Ht & Hl & Ho).
  exists o, s', vals, errs. rewrite E, Ht, <- !app_assoc. auto.
Qed.

Lemma no_post_after (vals : list json) (cl : list event)
    (errs : list string) :
  filter is_post cl = [] ->
  filter is_post (map (yield_response json_dumps) vals ++ cl
                  ++ map (yield_error json_dumps) errs) = [].
Proof.
  intros Hc. rewrite !filter_app, Hc.
  assert (A : forall vs, filter is_post
                (map (yield_response json_dumps) vs) = [])
    by (induction vs; simpl; auto).
  assert (B : forall es, filter is_post
                (map (yield_error json_dumps) es) = [])
    by (induction es; simpl; auto).
  now rewrite A, B.
Qed.

(** X8: a generator that was started makes its request first and makes
    no other: to /api/generate with the message as the prompt when there
    is no history, to /api/chat with the history, in order, and the
    message behind it as a user turn (left out when empty) when the
    history is a non-empty list; ["stream"] is true in both. *)
Theorem ollama_stream_request (message : string) (messages : json)
    (consumer : option nat) :
  consumer <> Some 0 ->
  (exists o t,
     run (ollama_stream json_loads json_dumps w message messages) consumer
     = (o, (posts w message messages ++ t)%list) /\
     filter is_post t = []) /\
  (truthy messages = false ->
   posts w message messages =
   [Post (OLLAMA_BASE w ++ "/api/generate")
         (JDict [("model", JStr (MODEL w)); ("prompt", JStr message);
                 ("stream", JBool true)])]) /\
  (forall l, messages = JList l -> l <> [] ->
   posts w message messages =
   [Post (OLLAMA_BASE w ++ "/api/chat")
         (JDict [("model", JStr (MODEL w));
                 ("messages",
                  JList (l ++ (if Str.is_empty message then []
                               else [turn "user" message]))%list);
                 ("stream", JBool true)])]).
Proof.
  intros Hc. split; [|split].
  - rewrite run_started by assumption.
    destruct (ollama_stream_trace_exact message messages
                {| demand := consumer; trace := [] |})
      as (o & s' & vals & errs & E & Ht & Hl).
    rewrite E. simpl in Ht. exists o. eexists. split.
    + rewrite Ht. reflexivity.
    + apply no_post_after; unfold closing;
        destruct (ollama_request w message messages) as [[u p]|];
        try reflexivity; destruct (requests_post w u p); reflexivity.
  - intros H. unfold posts, ollama_request. now rewrite H.
  - intros l -> Hl. unfold posts, ollama_request.
    destruct l as [|x l]; [congruence|]. simpl.
    destruct (Str.is_empty message); now rewrite ?app_nil_r.
Qed.

(** X9: the response of the backend, once obtained, is closed exactly
    once, after the last response record and before the error record,
    if any: so for a generator run to its end, for a read that fails,
    and for a consumer that closes the generator early alike. *)
Theorem ollama_response_closed (message : string) (messages : json)
    (url : string) (payload : json) (r : http_response)
    (consumer : option nat) :
  ollama_request w message messages = Ok (url, payload) ->
  requests_post w url payload = Responds r ->
  consumer <> Some 0 ->
  exists o vals errs,
    run (ollama_stream json_loads json_dumps w message messages) consumer
    = (o, (Post url payload :: map (yield_response json_dumps) vals
           ++ CloseResponse :: map (yield_error json_dumps) errs)%list) /\
    (length errs <= 1)%nat.
Proof.
  intros Hq Hr Hc. rewrite run_started by assumption.
  destruct (ollama_stream_trace_exact message messages
              {| demand := consumer; trace := [] |})
    as (o & s' & vals & errs & E & Ht & Hl).
  rewrite E. exists o, vals, errs. split; [|exact Hl].
  rewrite Ht. unfold posts, closing. rewrite Hq, Hr. reflexivity.
Qed.

(** A line that parses to something other than an object makes the loop
    raise at once. *)
Lemma ollama_lines_non_object (raw : string) (j : json) :
  Str.is_empty raw = false ->
  json_loads raw = Some j ->
  is_dict j = false ->
  exists e, forall rest err s,
    ollama_lines json_loads json_dumps (raw :: rest) err s
    = (Raise (Exception e), s).
Proof.
  intros Hr Hj Hd.
  destruct j as [| | | |t|l|d]; try discriminate;
    try (eexists; intros; simpl; rewrite Hr, Hj; reflexivity).
  - exists ("object has no attribute '" ++ "get" ++ "'").
    intros. simpl. rewrite Hr, Hj. unfold py_in.
    rewrite bind_lift_Ok.
    destruct (Str.contains "response" t); [reflexivity|].
    rewrite !bind_ret, bind_lift_Ok.
    destruct (Str.contains "message" t); reflexivity.
  - exists ("object has no attribute '" ++ "get" ++ "'").
    intros. simpl. rewrite Hr, Hj. unfold py_in.
    rewrite bind_lift_Ok.
    destruct (existsb _ l); [reflexivity|].
    rewrite !bind_ret, bind_lift_Ok.
    destruct (existsb _ l); reflexivity.
Qed.

(** X10: a line that parses, but not to an object (a number, a string,
    a list, null), ends the stream in failure: the loop raises at that
    line, nothing behind it is read, and the stream closes with the one
    error record. *)
Theorem non_object_fragment_fails (raw : string) (j : json) :
  Str.is_empty raw = false ->
  json_loads raw = Some j ->
  is_dict j = false ->
  exists e,
    (forall rest err s,
       ollama_lines json_loads json_dumps (raw :: rest) err s
       = (Raise (Exception e), s)) /\
    (forall rest err message,
       run (ollama_stream json_loads json_dumps
              (with_reply w (reply_lines (raw :: rest) err))
              message (JList [])) None
       = (Ok tt,
          [Post (OLLAMA_BASE w ++ "/api/generate")
                (JDict [("model", JStr (MODEL w)); ("prompt", JStr message);
                        ("stream", JBool true)]);
           CloseResponse;
           yield_error json_dumps ("ollama stream failed: " ++ e)])).
Proof.
  intros Hr Hj Hd.
  destruct (ollama_lines_non_object raw j Hr Hj Hd) as [e L].
  exists e. split; [exact L|].
  intros rest err message.
  unfold run, ollama_stream, try_except, try_catch.
  simpl truthy. cbv iota. rewrite bind_ret. cbv beta iota.
  rewrite bind_emit. unfold try_finally. cbn -[ollama_lines].
  rewrite L. reflexivity.
Qed.

(** [ollama_stream] with its request named. *)
Lemma ollama_stream_unfold (message : string) (messages : json)
    (s : gstate) :
  ollama_stream json_loads json_dumps w message messages s =
  try_except
    (match ollama_request w message messages with
     | Raise e => raise e
     | Ok (url, payload) =>
         emit (Post url payload) ;;
         match requests_post w url payload with
         | ConnectFails e => raise (RequestException e)
         | Responds r =>
             try_finally
               (match status_error r with
                | Some e => raise (RequestException e)
                | None => ollama_lines json_loads json_dumps
                            (iter_lines r) (read_error r)
                end)
               (emit CloseResponse)
         end
     end)
    (fun e => yield (_ndjson json_dumps
                       (error_record
                          ("ollama stream failed: " ++ exn_str e)))) s.
Proof.
  unfold ollama_stream, ollama_request, try_except, try_catch.
  destruct (truthy messages); [destruct (py_list messages) as [l|e]|];
    simpl obind; cbv iota; rewrite ?bind_lift_Ok, ?bind_ret;
    try reflexivity.
  destruct (Str.is_empty message); reflexivity.
Qed.

(** The loop over lines that are objects, for a consumer that iterates
    to the end. *)
Lemma ollama_lines_objects (lines : list string) (err : option string)
    (s : gstate) :
  demand s = None ->
  all_objects json_loads lines = true ->
  ollama_lines json_loads json_dumps lines err s =
  (if reaches_done json_loads lines then Ok tt
   else match err with
        | Some e => Raise (RequestException e)
        | None => Ok tt
        end,
   {| demand := None;
      trace := (trace s ++ map (fun r => Yield (_ndjson json_dumps r))
                               (fragment_records json_loads lines))%list |}).
Proof.
  revert s. induction lines as [|raw rest IH]; intros [dm t] Hd Ha;
    simpl in Hd; subst dm.
  - simpl. rewrite app_nil_r. now destruct err.
  - simpl in Ha. apply andb_prop in Ha as [Hraw Hrest].
    destruct (Str.is_empty raw) eqn:Er.
    + simpl. rewrite Er. now apply IH.
    + simpl in Hraw. destruct (json_loads raw) as [j|] eqn:Ej.
      * destruct j as [| | | | | |d]; try discriminate.
        rewrite (ollama_lines_dict json_loads json_dumps raw rest err d _
                   Er Ej).
        simpl fragment_records. simpl reaches_done. rewrite Er, Ej.
        unfold bind.
        destruct (fragment_record d) as [r|]; simpl;
          destruct (fragment_done d); simpl;
          rewrite ?app_nil_r; try reflexivity;
          rewrite IH by (assumption || reflexivity); simpl;
          rewrite <- ?app_assoc; reflexivity.
      * simpl. rewrite Er, Ej. now apply IH.
Qed.

(** X11: when every line that parses is an object and the consumer
    iterates to the end, the stream is: the request; the records of the
    objects up to the first that is done, in order; the closing of the
    response; and, when the read fails before any object is done, one
    error record. *)
Theorem ollama_stream_objects (message : string) (messages : json)
    (url : string) (payload : json)
    (lines : list string) (err : option string) :
  ollama_request w message messages = Ok (url, payload) ->
  all_objects json_loads lines = true ->
  run (ollama_stream json_loads json_dumps
         (with_reply w (reply_lines lines err)) message messages) None
  = (Ok tt,
     (Post url payload
      :: map (fun r => Yield (_ndjson json_dumps r))
             (fragment_records json_loads lines)
      ++ CloseResponse
      :: (if reaches_done json_loads lines then []
          else match err with
               | Some e =>
                   [yield_error json_dumps ("ollama stream failed: " ++ e)]
               | None => []
               end))%list).
Proof.
  intros Hq Ha. unfold run.
  assert (Hq' : ollama_request (with_reply w (reply_lines lines err))
                  message messages = Ok (url, payload)) by exact Hq.
  set (w' := with_reply w (reply_lines lines err)) in *.
  unfold ollama_stream, try_except, try_catch.
  unfold ollama_request in Hq'.
  destruct (truthy messages); [destruct (py_list messages) as [l|e]|];
    simpl in Hq'; try discriminate; injection Hq' as <- <-;
    rewrite ?bind_lift_Ok, ?bind_ret; cbv beta iota;
    try (destruct (Str.is_empty message); simpl negb; cbv iota);
    rewrite bind_emit; unfold try_finally; cbn -[ollama_lines];
    rewrite ollama_lines_objects by (assumption || reflexivity);
    destruct (reaches_done json_loads lines); destruct err;
    simpl; rewrite <- ?app_assoc; reflexivity.
Qed.

End HttpMore.

Lemma ollama_stream_request_witness :
  (exists o t,
     run (ollama_stream loads_ABC (fun _ => "{}") offline "hi"
            (JList [turn "user" "a"])) (Some 1)
     = (o, (posts offline "hi" (JList [turn "user" "a"]) ++ t)%list) /\
     filter is_post t = []) /\
  (truthy (JList [turn "user" "a"]) = false ->
   posts offline "hi" (JList [turn "user" "a"]) =
   [Post (OLLAMA_BASE offline ++ "/api/generate")
         (JDict [("model", JStr (MODEL offline)); ("prompt", JStr "hi");
                 ("stream", JBool true)])]) /\
  (forall l, JList [turn "user" "a"] = JList l -> l <> [] ->
   posts offline "hi" (JList [turn "user" "a"]) =
   [Post (OLLAMA_BASE offline ++ "/api/chat")
         (JDict [("model", JStr (MODEL offline));
                 ("messages",
                  JList (l ++ (if Str.is_empty "hi" then []
                               else [turn "user" "hi"]))%list);
                 ("stream", JBool true)])]).
Proof.
  apply (ollama_stream_request loads_ABC (fun _ => "{}") offline "hi"
           (JList [turn "user" "a"]) (Some 1)).
  discriminate.
Defined.

Lemma ollama_response_closed_witness :
  exists o vals errs,
    run (ollama_stream loads_ABC (fun _ => "{}")
           (with_reply offline (reply_lines ["A"; "C"] (Some "timed out")))
           "hi" (JList [])) (Some 1)
    = (o, (Post "http://localhost:11434/api/generate"
                (JDict [("model", JStr "gpt-oss:20b"); ("prompt", JStr "hi");
                        ("stream", JBool true)])
           :: map (yield_response (fun _ => "{}")) vals
           ++ CloseResponse :: map (yield_error (fun _ => "{}")) errs)%list)
    /\ (length errs <= 1)%nat.
Proof.
  apply (ollama_response_closed loads_ABC (fun _ => "{}")
           (with_reply offline (reply_lines ["A"; "C"] (Some "timed out")))
           "hi" (JList []) "http://localhost:11434/api/generate"
           (JDict [("model", JStr "gpt-oss:20b"); ("prompt", JStr "hi");
                   ("stream", JBool true)])
           (reply_lines ["A"; "C"] (Some "timed out")) (Some 1));
    [reflexivity | reflexivity | discriminate].
Defined.

Lemma non_object_fragment_fails_witness :
  exists e,
    (forall rest err s,
       ollama_lines (fun _ => Some (JInt 7)) (fun _ => "{}")
                    ("7" :: rest) err s
       = (Raise (Exception e), s)) /\
    (forall rest err message,
       run (ollama_stream (fun _ => Some (JInt 7)) (fun _ => "{}")
              (with_reply offline (reply_lines ("7" :: rest) err))
              message (JList [])) None
       = (Ok tt,
          [Post (OLLAMA_BASE offline ++ "/api/generate")
                (JDict [("model", JStr (MODEL offline));
                        ("prompt", JStr message); ("stream", JBool true)]);
           CloseResponse;
           yield_error (fun _ => "{}") ("ollama stream failed: " ++ e)])).
Proof.
  apply (non_object_fragment_fails (fun _ => Some (JInt 7)) (fun _ => "{}")
           offline "7" (JInt 7)); reflexivity.
Defined.

Lemma ollama_stream_objects_witness :
  run (ollama_stream loads_ABC (fun _ => "{}")
         (with_reply offline
            (reply_lines ["C"; ""; "<html>"; "A"] (Some "timed out")))
         "hi" (JList [])) None
  = (Ok tt,
     (Post "http://localhost:11434/api/generate"
           (JDict [("model", JStr "gpt-oss:20b"); ("prompt", JStr "hi");
                   ("stream", JBool true)])
      :: map (fun r => Yield (_ndjson (fun _ => "{}") r))
             (fragment_records loads_ABC ["C"; ""; "<html>"; "A"])
      ++ CloseResponse
      :: (if reaches_done loads_ABC ["C"; ""; "<html>"; "A"] then []
          else match Some "timed out" with
               | Some e =>
                   [yield_error (fun _ => "{}")
                                ("ollama stream failed: " ++ e)]
               | None => []
               end))%list).
Proof.
  apply (ollama_stream_objects loads_ABC (fun _ => "{}") offline "hi"
           (JList []) "http://localhost:11434/api/generate"
           (JDict [("model", JStr "gpt-oss:20b"); ("prompt", JStr "hi");
                   ("stream", JBool true)])
           ["C"; ""; "<html>"; "A"] (Some "timed out")); reflexivity.
Defined.

(** ** Closing a generator early *)

Section EarlyClose.

Lemma cc_silent_state {A} (o : outcome A) (evs : list event) :
  chunks evs = [] ->
  close_consistent (fun s => (o, {| demand := demand s;
                                    trace := (trace s ++ evs)%list |})).
Proof.
  intros He t n. exists o, evs. split; [reflexivity|].
  eexists _, _. split; [reflexivity|]. simpl.
  rewrite chunks_app, He. simpl. rewrite ?Nat.sub_0_r, ?app_nil_r.
  split; [reflexivity|]. split; [auto | lia].
Qed.

Lemma cc_same_state {A} (o : outcome A) :
  close_consistent (fun s => (o, s)).
Proof.
  intros t n. exists o, []. rewrite app_nil_r. split; [reflexivity|].
  eexists _, _. split; [reflexivity|]. simpl.
  rewrite ?app_nil_r, ?Nat.sub_0_r. split; [reflexivity|].
  split; [auto | lia].
Qed.

Lemma cc_ret {A} (a : A) : close_consistent (ret a).
Proof. apply cc_same_state. Qed.

Lemma cc_raise {A} (e : exn) : close_consistent (@raise A e).
Proof. apply cc_same_state. Qed.

Lemma cc_lift {A} (o : outcome A) : close_consistent (lift o).
Proof. apply cc_same_state. Qed.

Lemma cc_emit (ev : event) : chunks [ev] = [] -> close_consistent (emit ev).
Proof. intros H. apply (cc_silent_state (Ok tt) [ev] H). Qed.

Lemma cc_yield (c : string) : close_consistent (yield c).
Proof.
  intros t n. exists (Ok tt), [Yield c]. split; [reflexivity|].
  unfold yield. simpl demand. simpl trace.
  destruct n as [|n]; simpl Nat.leb; cbv iota;
    eexists _, _; (split; [reflexivity|]); simpl;
    rewrite chunks_app; simpl.
  - split; [reflexivity|]. split; [lia | reflexivity].
  - split; [reflexivity|]. split; [|lia].
    intros _. rewrite ?Nat.sub_0_r. auto.
Qed.

Lemma cc_if {A} (b : bool) (g1 g2 : G A) :
  close_consistent g1 -> close_consistent g2 ->
  close_consistent (if b then g1 else g2).
Proof. destruct b; auto. Qed.

Lemma firstn_chunks_app (n : nat) (t1 t2 : list event) :
  (length (chunks t1) <= n)%nat ->
  firstn (S n) (chunks (t1 ++ t2)) =
  (chunks t1 ++ firstn (S (n - length (chunks t1))) (chunks t2))%list.
Proof.
  intros L. rewrite chunks_app, firstn_app.
  rewrite firstn_all2 by lia. f_equal. f_equal. lia.
Qed.

Lemma firstn_chunks_closed (n : nat) (t1 t2 : list event) :
  (n < length (chunks t1))%nat ->
  firstn (S n) (chunks (t1 ++ t2)) = firstn (S n) (chunks t1).
Proof.
  intros L. rewrite chunks_app, firstn_app.
  replace (S n - length (chunks t1)) with 0 by lia.
  simpl. now rewrite app_nil_r.
Qed.

(** Sequencing after a step whose two runs are known. *)
Lemma cc_continue {A B} (k : outcome A -> option (G B))
    (m : G A) :
  close_consistent m ->
  (forall o g, k o = Some g -> close_consistent g) ->
  k (Raise GeneratorExit) = None ->
  close_consistent
    (fun s => let (o, s') := m s in
              match k o with
              | Some g => g s'
              | None => (match o with
                         | Ok _ => Raise GeneratorExit
                         | Raise e => Raise e
                         end, s')
              end).
Proof.
  intros Hm Hk Hge t n.
  destruct (Hm t n) as (o1 & t1 & E1 & o2 & s2 & E2 & Hc & Hle & Hgt).
  rewrite E1, E2.
  destruct (Nat.le_gt_cases (length (chunks t1)) n) as [L|L].
  - destruct (Hle L) as [-> ->].
    replace (S n - length (chunks t1)) with (S (n - length (chunks t1)))
      by lia.
    destruct (k o1) as [g|] eqn:Ek.
    + destruct (Hk o1 g Ek (t ++ t1)%list (n - length (chunks t1)))
        as (o1' & t1' & E1' & o2' & s2' & E2' & Hc' & Hle' & Hgt').
      rewrite E1', E2'. exists o1', (t1 ++ t1')%list.
      rewrite app_assoc. split; [reflexivity|].
      exists o2', s2'. split; [reflexivity|]. split; [|split].
      * rewrite Hc', chunks_app, firstn_chunks_app by assumption.
        now rewrite app_assoc.
      * intros L2. rewrite chunks_app, length_app in L2.
        destruct Hle' as [-> ->]; [lia|]. split; [reflexivity|].
        rewrite chunks_app, length_app. f_equal. f_equal. lia.
      * intros L2. rewrite chunks_app, length_app in L2.
        apply Hgt'. lia.
    + exists (match o1 with Ok _ => Raise GeneratorExit | Raise e => Raise e
              end), t1.
      split; [reflexivity|]. eexists _, _. split; [reflexivity|].
      simpl trace. split; [|split].
      * rewrite chunks_app. f_equal. rewrite firstn_all2; [reflexivity|lia].
      * intros _. split; [reflexivity|]. f_equal. f_equal. lia.
      * lia.
  - rewrite (Hgt L), Hge.
    destruct (k o1) as [g|] eqn:Ek.
    + destruct (Hk o1 g Ek (t ++ t1)%list 0)
        as (o1' & t1' & E1' & _).
      rewrite E1'. exists o1', (t1 ++ t1')%list.
      rewrite app_assoc. split; [reflexivity|].
      eexists _, _. split; [reflexivity|]. split; [|split].
      * rewrite Hc. now rewrite firstn_chunks_closed.
      * intros L2. rewrite chunks_app, length_app in L2. lia.
      * reflexivity.
    + exists (match o1 with Ok _ => Raise GeneratorExit | Raise e => Raise e
              end), t1.
      split; [reflexivity|]. eexists _, _. split; [reflexivity|].
      split; [exact Hc|]. split; [lia | reflexivity].
Qed.

Lemma cc_ext {A} (g g' : G A) :
  (forall s, g s = g' s) -> close_consistent g -> close_consistent g'.
Proof. intros E H t n. rewrite <- !E. apply H. Qed.

Lemma cc_bind {A B} (m : G A) (f : A -> G B) :
  close_consistent m -> (forall a, close_consistent (f a)) ->
  close_consistent (bind m f).
Proof.
  intros Hm Hf.
  apply (cc_ext (fun s => let (o, s') := m s in
                   match (match o with
                          | Ok a => Some (f a)
                          | Raise _ => None
                          end) with
                   | Some g => g s'
                   | None => (match o with
                              | Ok _ => Raise GeneratorExit
                              | Raise e => Raise e
                              end, s')
                   end)).
  - intros s. unfold bind. destruct (m s) as [[a|e] s']; reflexivity.
  - apply (cc_continue (fun o => match o with
                                 | Ok a => Some (f a)
                                 | Raise _ => None
                                 end) m Hm); [|reflexivity].
    intros [a|e] g H; [|discriminate]. injection H as <-. apply Hf.
Qed.

Lemma cc_try_except {A} (body : G A) (handler : exn -> G A) :
  close_consistent body -> (forall e, close_consistent (handler e)) ->
  close_consistent (try_except body handler).
Proof.
  intros Hb Hh.
  apply (cc_ext (fun s => let (o, s') := body s in
                   match (match o with
                          | Ok a => Some (ret a)
                          | Raise e => if is_Exception e
                                       then Some (handler e) else None
                          end) with
                   | Some g => g s'
                   | None => (match o with
                              | Ok _ => Raise GeneratorExit
                              | Raise e => Raise e
                              end, s')
                   end)).
  - intros s. unfold try_except, try_catch.
    destruct (body s) as [[a|e] s']; [reflexivity|].
    destruct (is_Exception e); reflexivity.
  - apply (cc_continue (fun o => match o with
                                 | Ok a => Some (ret a)
                                 | Raise e => if is_Exception e
                                              then Some (handler e) else None
                                 end) body Hb); [|reflexivity].
    intros [a|e] g H.
    + injection H as <-. apply cc_ret.
    + destruct (is_Exception e); [|discriminate].
      injection H as <-. apply Hh.
Qed.

Lemma cc_try_finally {A} (body : G A) (fin : G unit) :
  close_consistent body -> silent fin ->
  close_consistent (try_finally body fin).
Proof.
  intros Hb (evs & He & Hf) t n.
  destruct (Hb t n) as (o1 & t1 & E1 & o2 & s2 & E2 & Hc & Hle & Hgt).
  unfold try_finally. rewrite E1, E2, !Hf. simpl demand. simpl trace.
  exists o1, (t1 ++ evs)%list. rewrite app_assoc. split; [reflexivity|].
  eexists _, _. split; [reflexivity|]. simpl trace.
  assert (Hk : chunks (t1 ++ evs) = chunks t1)
    by now rewrite chunks_app, He, app_nil_r.
  rewrite Hk. split; [|split].
  - now rewrite chunks_app, He, app_nil_r.
  - intros L. destruct (Hle L) as [-> ->]. simpl. auto.
  - exact Hgt.
Qed.

(** What a closing consumer receives of a consistent generator. *)
Lemma cc_run (g : G unit) (n : nat) :
  close_consistent g ->
  chunks (snd (run g (Some n))) = firstn n (chunks (snd (run g None))).
Proof.
  intros H. destruct n as [|n]; [reflexivity|].
  destruct (H [] n) as (o1 & t1 & E1 & o2 & s2 & E2 & Hc & _).
  unfold run. rewrite E1, E2. exact Hc.
Qed.

End EarlyClose.

Create HintDb cc.
#[local] Hint Resolve cc_ret cc_raise cc_lift cc_yield cc_bind cc_if : cc.

Lemma gemini_lines_cc json_dumps lines err :
  close_consistent (gemini_lines json_dumps lines err).
Proof.
  induction lines as [|line rest IH]; simpl.
  - destruct err; auto with cc.
  - destruct (Str.is_empty (Str.rstrip_newline line)); auto with cc.
Qed.

Lemma ollama_lines_cc json_loads json_dumps lines err :
  close_consistent (ollama_lines json_loads json_dumps lines err).
Proof.
  induction lines as [|raw rest IH]; simpl.
  - destruct err; auto with cc.
  - destruct (Str.is_empty raw); [exact IH|].
    destruct (json_loads raw) as [j|]; [|exact IH].
    repeat (first [ apply cc_bind; [|intros ?]
                  | apply cc_if
                  | solve [auto with cc] ]).
Qed.

Lemma gemini_cli_stream_cc json_dumps w message :
  close_consistent (gemini_cli_stream json_dumps w message).
Proof.
  unfold gemini_cli_stream. apply cc_bind; [now apply cc_emit|].
  intros _. destruct (subprocess_Popen w _) as [e|proc]; [apply cc_yield|].
  apply cc_try_finally; [apply gemini_lines_cc|].
  exists [Terminate]. split; [reflexivity|]. intros s.
  unfold try_except, try_catch, bind, emit, raise, ret.
  destruct (terminate_error proc); reflexivity.
Qed.

Lemma ollama_stream_cc json_loads json_dumps w message messages :
  close_consistent (ollama_stream json_loads json_dumps w message messages).
Proof.
  unfold ollama_stream. apply cc_try_except; [|intros e; apply cc_yield].
  apply cc_bind; [apply cc_if; auto with cc|].
  intros [url payload]. apply cc_bind; [now apply cc_emit|]. intros _.
  destruct (requests_post w url payload) as [e|r]; [apply cc_raise|].
  apply cc_try_finally.
  - destruct (status_error r); [apply cc_raise | apply ollama_lines_cc].
  - exists [CloseResponse]. split; reflexivity.
Qed.

(** X12: a consumer that closes the stream after [n] chunks has
    received exactly the first [n] chunks of the stream it would have
    received by iterating to the end, with either backend. *)
Theorem early_close_prefix
    (json_loads : string -> option json) (json_dumps : json -> string)
    (w : world) (gen : generator) (message : string) (messages : json)
    (n : nat) :
  chunks (snd (serve json_loads json_dumps w
                     (Stream gen message messages) (Some n)))
  = firstn n (chunks (snd (serve json_loads json_dumps w
                                 (Stream gen message messages) None))).
Proof.
  unfold serve, call. apply cc_run.
  destruct gen; [apply ollama_stream_cc | apply gemini_cli_stream_cc].
Qed.

(** ** The shape of the records *)

Section RecordShape.

Variable json_loads : string -> option json.
Variable json_dumps : json -> string.
Variable w : world.

Lemma fragment_record_truthy (d : dict) (r : json) :
  fragment_record d = Some r ->
  exists v, r = response_record v /\ truthy v = true.
Proof.
  unfold fragment_record.
  destruct (truthy (dict_get "response" d)) eqn:T.
  - intros H. injection H as <-. eauto.
  - destruct (dict_get "message" d) as [| | | | | |m]; try discriminate.
    destruct (truthy (dict_get "content" m)) eqn:Tc; [|discriminate].
    intros H. injection H as <-. eauto.
Qed.

Lemma ollama_lines_blank (raw : string) (rest : list string)
    (err : option string) :
  Str.is_empty raw = true ->
  ollama_lines json_loads json_dumps (raw :: rest) err
  = ollama_lines json_loads json_dumps rest err.
Proof. intros H. simpl. now rewrite H. Qed.

Lemma yield_trace (c : string) (s : gstate) :
  trace (snd (yield c s)) = (trace s ++ [Yield c])%list.
Proof.
  unfold yield. destruct (demand s) as [n|]; [destruct (n <=? 1)%nat|];
    reflexivity.
Qed.

Lemma ollama_lines_truthy (lines : list string) (err : option string)
    (s : gstate) :
  exists vals,
    forallb truthy vals = true /\
    trace (snd (ollama_lines json_loads json_dumps lines err s))
    = (trace s ++ map (yield_response json_dumps) vals)%list.
Proof.
  revert s. induction lines as [|raw rest IH]; intros s.
  - exists []. simpl. rewrite app_nil_r. split; [reflexivity|].
    now destruct err.
  - destruct (Str.is_empty raw) eqn:Er;
      [rewrite ollama_lines_blank by assumption; apply IH|].
    destruct (json_loads raw) as [j|] eqn:Ej;
      [|rewrite ollama_lines_skip by assumption; apply IH].
    destruct (is_dict j) eqn:Ed.
    + destruct j as [| | | | | |d]; try discriminate.
      rewrite (ollama_lines_dict json_loads json_dumps raw rest err d s
                 Er Ej).
      unfold bind. destruct (fragment_record d) as [r|] eqn:F.
      * destruct (fragment_record_truthy d r F) as (v & -> & Tv).
        pose proof (yield_trace (_ndjson json_dumps (response_record v)) s)
          as Hy.
        destruct (yield _ s) as [[[]|e] s1]; simpl in Hy.
        -- destruct (fragment_done d).
           ++ exists [v]. simpl. now rewrite Tv, Hy.
           ++ destruct (IH s1) as (vals & Tvals & Ht).
              exists (v :: vals). simpl. rewrite Tv, Ht, Hy, <- app_assoc.
              auto.
        -- exists [v]. simpl. now rewrite Tv, Hy.
      * simpl. destruct (fragment_done d); [|apply IH].
        exists []. simpl. now rewrite app_nil_r.
    + destruct (ollama_lines_non_object json_loads json_dumps raw j Er Ej Ed)
        as [e L].
      rewrite L. exists []. simpl. now rewrite app_nil_r.
Qed.

Lemma gemini_lines_truthy (lines : list string) (err : option string)
    (s : gstate) :
  exists vals,
    forallb truthy vals = true /\
    trace (snd (gemini_lines json_dumps lines err s))
    = (trace s ++ map (yield_response json_dumps) vals)%list.
Proof.
  revert s. induction lines as [|line rest IH]; intros s; simpl.
  - exists []. simpl. rewrite app_nil_r. split; [reflexivity|].
    now destruct err.
  - destruct (Str.is_empty (Str.rstrip_newline line)) eqn:E; [apply IH|].
    unfold bind.
    pose proof (yield_trace (_ndjson json_dumps
                  (response_record (JStr (Str.rstrip_newline line)))) s)
      as Hy.
    destruct (yield _ s) as [[[]|e] s1]; simpl in Hy.
    + destruct (IH s1) as (vals & Tvals & Ht).
      exists (JStr (Str.rstrip_newline line) :: vals). simpl.
      rewrite E, Ht, Hy, <- app_assoc. auto.
    + exists [JStr (Str.rstrip_newline line)]. simpl. now rewrite E, Hy.
Qed.

Lemma ollama_stream_records (message : string) (messages : json)
    (s : gstate) :
  exists o s' vals errs,
    ollama_stream json_loads json_dumps w message messages s = (o, s') /\
    forallb truthy vals = true /\
    (length errs <= 1)%nat /\
    chunks (trace s') =
    (chunks (trace s)
     ++ map (fun v => _ndjson json_dumps (response_record v)) vals
     ++ map (fun e => _ndjson json_dumps (error_record e)) errs)%list.
Proof.
  rewrite ollama_stream_unfold.
  match goal with |- context [try_except ?b _] => set (body := b) end.
  assert (B : exists vals t,
    forallb truthy vals = true /\
    trace (snd (body s)) = (trace s ++ t)%list /\
    chunks t = map (fun v => _ndjson json_dumps (response_record v)) vals).
  { subst body.
    destruct (ollama_request w message messages) as [[url payload]|e].
    2: { exists [], []. simpl. now rewrite app_nil_r. }
    rewrite bind_emit.
    destruct (requests_post w url payload) as [e|r].
    { exists [], [Post url payload]. simpl. auto. }
    unfold try_finally, emit. destruct (status_error r) as [e|].
    { exists [], [Post url payload; CloseResponse]. simpl.
      rewrite <- app_assoc. auto. }
    match goal with
    | |- context [ollama_lines _ _ ?l ?e ?s1] =>
        destruct (ollama_lines_truthy l e s1) as (vals & Tv & Ht);
        destruct (ollama_lines json_loads json_dumps l e s1) as [o s2]
    end.
    simpl in *.
    exists vals, (Post url payload
                  :: map (yield_response json_dumps) vals
                  ++ [CloseResponse])%list.
    split; [exact Tv|]. split.
    - rewrite Ht, <- !app_assoc. reflexivity.
    - simpl. rewrite chunks_app, chunks_yield_response. simpl.
      now rewrite app_nil_r. }
  destruct B as (vals & t & Tv & Hb & Hc).
  destruct (try_except_yield_error json_dumps body "ollama stream failed: "
              s t Hb) as (o & s' & errs & E & Ht & Hl & Ho).
  exists o, s', vals, errs. rewrite E. repeat split; try assumption.
  rewrite Ht, !chunks_app, Hc, chunks_yield_error. reflexivity.
Qed.

Lemma gemini_cli_stream_records (message : string) (s : gstate) :
  exists o s' vals errs,
    gemini_cli_stream json_dumps w message s = (o, s') /\
    forallb truthy vals = true /\
    (length errs <= 1)%nat /\
    chunks (trace s') =
    (chunks (trace s)
     ++ map (fun v => _ndjson json_dumps (response_record v)) vals
     ++ map (fun e => _ndjson json_dumps (error_record e)) errs)%list.
Proof.
  destruct (subprocess_Popen w (gemini_args w message)) as [e|proc] eqn:HL.
  - unfold gemini_cli_stream. fold (gemini_args w message).
    rewrite bind_emit, HL.
    pose proof (yield_trace
      (_ndjson json_dumps (error_record ("failed to start gemini cli: " ++ e)))
      {| demand := demand s;
         trace := (trace s ++ [Popen (gemini_args w message)])%list |}) as Hy.
    destruct (yield _ _) as [o s'].
    exists o, s', [], ["failed to start gemini cli: " ++ e].
    split; [reflexivity|]. split; [reflexivity|]. split; [simpl; lia|].
    simpl in Hy. rewrite Hy, !chunks_app. simpl. now rewrite app_nil_r.
  - rewrite (gemini_cli_stream_launched json_dumps w message proc s HL).
    match goal with
    | |- context [gemini_lines _ ?l ?e ?s1] =>
        destruct (gemini_lines_truthy l e s1) as (vals & Tv & Ht);
        destruct (gemini_lines json_dumps l e s1) as [o s2]
    end.
    simpl in *. eexists _, _, vals, []. split; [reflexivity|].
    split; [exact Tv|]. split; [simpl; lia|]. simpl.
    rewrite Ht, !chunks_app, chunks_yield_response. simpl.
    now rewrite !app_nil_r.
Qed.

(** X13: every chunk of every stream, of either backend and under every
    consumer, is a record with the one field [response] or [error]; the
    value of a [response] is never empty (nor null, nor zero); and there
    is at most one [error] record, behind all the others. *)
Theorem stream_records (gen : generator) (message : string)
    (messages : json) (consumer : option nat) :
  exists vals errs,
    chunks (snd (serve json_loads json_dumps w
                       (Stream gen message messages) consumer))
    = (map (fun v => _ndjson json_dumps (response_record v)) vals
       ++ map (fun e => _ndjson json_dumps (error_record e)) errs)%list /\
    forallb truthy vals = true /\
    (length errs <= 1)%nat.
Proof.
  unfold serve, call, run.
  destruct consumer as [[|n]|] eqn:Ec.
  { exists [], []. simpl. auto. }
  all: destruct gen;
    [ destruct (ollama_stream_records message messages
                  {| demand := consumer; trace := [] |})
        as (o & s' & vals & errs & E & Tv & Hl & Hc)
    | destruct (gemini_cli_stream_records message
                  {| demand := consumer; trace := [] |})
        as (o & s' & vals & errs & E & Tv & Hl & Hc) ];
    rewrite Ec in E; rewrite E; exists vals, errs; simpl in *; auto.
Qed.

End RecordShape.

(** ** Each backend keeps to its own resources *)

Lemma filter_yields (p : event -> bool) json_dumps
    (vals : list json) (errs : list string) :
  (forall c, p (Yield c) = false) ->
  filter p (map (yield_response json_dumps) vals) = [] /\
  filter p (map (yield_error json_dumps) errs) = [].
Proof.
  intros H. split.
  - induction vals as [|v vals IH]; simpl; [reflexivity|].
    unfold yield_response at 1. now rewrite H.
  - induction errs as [|e errs IH]; simpl; [reflexivity|].
    unfold yield_error at 1. now rewrite H.
Qed.

(** X14: under every consumer, a stream of the HTTP backend launches and
    terminates no process, and a stream of the process backend makes no
    HTTP request. *)
Theorem backends_isolated
    (json_loads : string -> option json) (json_dumps : json -> string)
    (w : world) (message : string) (messages : json)
    (consumer : option nat) :
  filter process_event
         (snd (serve json_loads json_dumps w
                     (Stream ollama_stream_fn message messages) consumer))
  = [] /\
  filter http_event
         (snd (serve json_loads json_dumps w
                     (Stream gemini_cli_stream_fn message messages) consumer))
  = [].
Proof.
  unfold serve, call.
  destruct consumer as [[|n]|] eqn:Ec; [split; reflexivity| |].
  all: rewrite <- Ec;
    assert (Hc : consumer <> Some 0) by (rewrite Ec; discriminate);
    clear Ec; split.
  1,3: rewrite run_started by assumption;
    destruct (ollama_stream_trace_exact json_loads json_dumps w message
                messages {| demand := consumer; trace := [] |})
      as (o & s' & vals & errs & E & Ht & _);
    rewrite E; simpl in *; rewrite Ht, !filter_app;
    destruct (filter_yields process_event json_dumps vals errs
                (fun _ => eq_refl)) as [-> ->];
    unfold posts, closing;
    destruct (ollama_request w message messages) as [[u p]|];
    try reflexivity; destruct (requests_post w u p); reflexivity.
  all: destruct (subprocess_Popen w (gemini_args w message))
         as [e|proc] eqn:HL;
    [ destruct (gemini_run_launch_fails json_dumps w message e consumer
                  HL Hc) as [_ ->]; reflexivity
    | destruct (gemini_run_launched json_dumps w message proc consumer
                  HL Hc) as [vals ->];
      simpl; rewrite filter_app;
      destruct (filter_yields http_event json_dumps vals []
                  (fun _ => eq_refl)) as [-> _]; reflexivity ].
Qed.

(** ** The two endpoints side by side *)

Lemma limit_message_within (m : string) :
  (Z.of_nat (String.length m) <= 8000)%Z -> limit_message m = m.
Proof.
  intros H. unfold limit_message.
  apply Z.ltb_ge in H. rewrite H. now rewrite andb_false_r.
Qed.

Lemma limit_history_within (h : json) :
  (forall l, h = JList l -> (length l <= 20)%nat) -> limit_history h = h.
Proof.
  intros H. destruct h as [| | | | |l|]; try reflexivity.
  specialize (H l eq_refl). destruct l as [|x l]; [reflexivity|].
  unfold limit_history, last_n.
  replace (length (x :: l) - 20) with 0 by lia. reflexivity.
Qed.

Lemma chat_posts_stream_off (w : world) (m : string) (h : json) :
  chat_posts w m h = map stream_off (posts w m h).
Proof.
  unfold chat_posts, chat_request, posts, ollama_request.
  destruct (truthy h); [destruct (py_list h)|]; reflexivity.
Qed.

(** X15: for a body that [chat_stream] accepts and that is within the
    limits (a message of at most 8000 characters, a history list of at
    most 20 turns), [chat] posts the very request that [ollama_stream]
    posts for it, but for ["stream"], which is false. *)
Theorem same_conversation (w : world) (d : dict) (gen : generator)
    (message : string) (messages : json) :
  chat_stream (JDict d) = Ok (Stream gen message messages) ->
  (Z.of_nat (String.length message) <= 8000)%Z ->
  (forall l, messages = JList l -> (length l <= 20)%nat) ->
  trace (snd (chat w "POST" (JDict d) idle))
  = map stream_off (posts w message messages).
Proof.
  intros H Hm Hh.
  assert (Hp : provider_is_text d = true).
  { rewrite chat_stream_dict in H. unfold provider_is_text.
    destruct (py_strip (message_field d)); [simpl in H|discriminate].
    destruct (provider_field d); try discriminate; reflexivity. }
  apply chat_stream_Stream_inv in H as (Hs & -> & Ha).
  destruct (chat_trace w d message idle Hs Hp Ha) as [o E].
  rewrite E. simpl.
  rewrite limit_message_within, limit_history_within by assumption.
  apply chat_posts_stream_off.
Qed.

Lemma same_conversation_witness :
  trace (snd (chat offline "POST"
                (JDict [("message", JStr "hi");
                        ("messages", JList [turn "user" "a"]);
                        ("provider", JStr "gemini")]) idle))
  = map stream_off (posts offline "hi" (JList [turn "user" "a"])).
Proof.
  apply (same_conversation offline
           [("message", JStr "hi"); ("messages", JList [turn "user" "a"]);
            ("provider", JStr "gemini")]
           gemini_cli_stream_fn "hi" (JList [turn "user" "a"])).
  - reflexivity.
  - vm_compute. discriminate.
  - intros l H. injection H as <-. simpl. lia.
Defined.

(** ** Framing *)

Lemma string_app_assoc (a b c : string) : (a ++ b) ++ c = a ++ b ++ c.
Proof. induction a as [|x a IH]; simpl; [reflexivity | now rewrite IH]. Qed.

Lemma split_lines_line (body rest : string) :
  no_newline body = true ->
  split_lines (body ++ Str.nl ++ rest) = body :: split_lines rest.
Proof.
  induction body as [|c body IH]; intros H; simpl in *.
  - reflexivity.
  - apply andb_prop in H as [Hc Hb].
    destruct (Ascii.eqb c (ascii_of_nat 10)); [discriminate|].
    now rewrite IH.
Qed.

(** X16: when [json.dumps] puts no newline in its output, the text of
    any sequence of chunks made by [_ndjson] reads back, line by line,
    as exactly the dumps of the records, one line per record, in
    order. *)
Theorem ndjson_round_trip (json_dumps : json -> string) (recs : list json) :
  (forall v, no_newline (json_dumps v) = true) ->
  split_lines (received (map (_ndjson json_dumps) recs))
  = map json_dumps recs.
Proof.
  intros H. induction recs as [|r recs IH]; simpl; [reflexivity|].
  unfold _ndjson at 1. rewrite string_app_assoc.
  rewrite split_lines_line by apply H. now rewrite IH.
Qed.

Lemma ndjson_round_trip_witness :
  split_lines (received (map (_ndjson (fun _ => "{}"))
                             [response_record (JStr "a");
                              error_record "timed out"]))
  = map (fun _ => "{}") [response_record (JStr "a");
                         error_record "timed out"].
Proof.
  apply (ndjson_round_trip (fun _ => "{}")
           [response_record (JStr "a"); error_record "timed out"]).
  reflexivity.
Defined.

(** ** A history that is not a sequence *)

(** X17: a history that is neither empty nor iterable (a number, true)
    passes the validation and then fails at [list(messages)], before any
    request: [ollama_stream] turns the failure into its one error
    record, while [chat], which catches only the exceptions of the HTTP
    library, lets it escape. *)
Theorem history_not_iterable
    (json_loads : string -> option json) (json_dumps : json -> string)
    (w : world) (d : dict) (m : string) (e : exn) (s : gstate) :
  py_strip (message_field d) = Ok m ->
  provider_is_text d = true ->
  truthy (history_field d) = true ->
  py_list (history_field d) = Raise e ->
  run (ollama_stream json_loads json_dumps w m (history_field d)) None
  = (Ok tt, [yield_error json_dumps ("ollama stream failed: " ++ exn_str e)])
  /\
  chat w "POST" (JDict d) s = (Raise e, s).
Proof.
  intros Hm Hp Ht Hl. split.
  - unfold run, ollama_stream, try_except, try_catch.
    rewrite Ht, Hl, bind_lift_Raise.
    destruct (history_field d); try discriminate;
      injection Hl as <-; reflexivity.
  - assert (Ha : Str.is_empty m && negb (truthy (history_field d)) = false)
      by (rewrite Ht; apply andb_false_r).
    chat_open d m Hm Hp Ha. unfold try_catch.
    assert (Hh : limit_history (history_field d) = history_field d)
      by (destruct (history_field d) as [| | | | |l|]; try reflexivity;
          discriminate).
    rewrite Hh, Ht, Hl, bind_lift_Raise.
    destruct (history_field d); try discriminate;
      injection Hl as <-; reflexivity.
Qed.

Lemma history_not_iterable_witness :
  run (ollama_stream (fun _ => None) (fun _ => "{}") offline "hi"
         (history_field [("message", JStr "hi"); ("messages", JInt 5)])) None
  = (Ok tt,
     [yield_error (fun _ => "{}")
        ("ollama stream failed: "
         ++ exn_str (TypeError "object is not iterable"))])
  /\
  chat offline "POST" (JDict [("message", JStr "hi"); ("messages", JInt 5)])
       idle
  = (Raise (TypeError "object is not iterable"), idle).
Proof.
  apply (history_not_iterable (fun _ => None) (fun _ => "{}") offline
           [("message", JStr "hi"); ("messages", JInt 5)] "hi"
           (TypeError "object is not iterable") idle); reflexivity.
Defined.
